(** * A shallow embedding of [app.py], the embedding-indexed memory service.

    The service has five endpoints ([health_check], [generate_embedding],
    [query_memory], [similarity_memory_search], [insert_update_memory]) and a
    start-up hook ([load_model]).  Each endpoint is embedded as a function on
    an explicit [World]: the process-wide model handle, the committed state of
    the PostgreSQL store, a log of connection-level events, the wall clock
    and the standard output.

    The two external collaborators are kept abstract where the source does not
    determine them: the sentence encoder (a function from text to a vector or
    an exception), the distance operator [<=>] with the store's ordering of
    its results, and the store's interpretation of an arbitrary SQL text.  The
    three statements that [app.py] builds itself (the ranking SELECT, the
    INSERT and the UPDATE on [public.memory]) are given their SQL meaning. *)

From Stdlib Require Import ZArith List String Ascii Bool Lia.
From Stdlib Require Import Sorted Permutation.
Import ListNotations.

Open Scope string_scope.
Open Scope Z_scope.

(** ** Python string methods used by the source.

    Texts are modelled as ASCII strings; [isspace] is Python's [str.isspace]
    on that range. *)

Module PyStr.

Definition isspace (c : ascii) : bool :=
  let n := N_of_ascii c in
  (((9 <=? n) && (n <=? 13)) || ((28 <=? n) && (n <=? 32)))%N.

Fixpoint lstrip (s : string) : string :=
  match s with
  | EmptyString => EmptyString
  | String c s' => if isspace c then lstrip s' else s
  end.

Fixpoint rstrip (s : string) : string :=
  match s with
  | EmptyString => EmptyString
  | String c s' =>
      match rstrip s' with
      | EmptyString => if isspace c then EmptyString else String c EmptyString
      | t => String c t
      end
  end.

Definition strip (s : string) : string := rstrip (lstrip s).

Definition upper_char (c : ascii) : ascii :=
  let n := N_of_ascii c in
  if ((97 <=? n) && (n <=? 122))%N then ascii_of_N (n - 32) else c.

Fixpoint upper (s : string) : string :=
  match s with
  | EmptyString => EmptyString
  | String c s' => String (upper_char c) (upper s')
  end.

Definition startswith (s p : string) : bool := String.prefix p s.

(** Pieces of [s] between commas, as a SQL select list is read. *)
Fixpoint split_commas (s : string) : list string :=
  match s with
  | EmptyString => [EmptyString]
  | String c s' =>
      if Ascii.eqb c ","%char then EmptyString :: split_commas s'
      else match split_commas s' with
           | h :: t => String c h :: t
           | [] => [String c EmptyString]
           end
  end.

End PyStr.

(** ** Configuration *)

Definition MODEL_NAME : string := "all-mpnet-base-v2".
Definition APP_PORT : Z := 8000.

(** A Python exception, with its message. *)
Inductive exn : Type := Exception (msg : string).

(** [fastapi.HTTPException(status_code, detail)]. *)
Inductive HTTPError : Type := HTTPException (status_code : Z) (detail : string).

(** ** Request models (the pydantic classes) *)

Record TextToEmbed := { text : string }.

Record QueryRequest := { query : string }.

Record MemoryRecord := {
  id : option Z;
  title : string;
  content : string;
  scope : string;
  project : option string;
  category : option string;
  tags : option (list string);
  source : option string;
  priority : Z;
  status : string;
  usage_count : Z;
  created_at : option Z;
  updated_at : option Z;
  last_used_at : option Z
}.

Record SimilaritySearchRequest := { query_text : string; top_k : Z }.

(** The declared default of [top_k]. *)
Definition default_top_k : Z := 5.

(** Events on storage connections, oldest first in a log. *)
Inductive db_event : Type :=
| EvConnect
| EvExecute
| EvCommit
| EvCursorClose
| EvClose.

Definition is_connect (e : db_event) : bool :=
  match e with EvConnect => true | _ => false end.

Definition is_close (e : db_event) : bool :=
  match e with EvClose => true | _ => false end.

Definition count_events (p : db_event -> bool) (l : list db_event) : Z :=
  Z.of_nat (List.length (filter p l)).

(** Connections acquired and not yet released. *)
Definition open_connections (l : list db_event) : Z :=
  count_events is_connect l - count_events is_close l.

Set Implicit Arguments.
Set Contextual Implicit.

Section Values.

(** Scalars of the vector space (the floats of the encoder and of the store). *)
Variable F : Type.

(** ** Values of rows and of response payloads *)

Inductive value : Type :=
| VNone
| VBool (b : bool)
| VInt (z : Z)
| VStr (s : string)
| VStrList (l : list string)
| VTime (t : Z)
| VFloat (x : F)
| VVector (v : list F).

Definition is_vector (v : value) : bool :=
  match v with VVector _ => true | _ => false end.

Definition of_opt {A : Type} (f : A -> value) (o : option A) : value :=
  match o with Some a => f a | None => VNone end.

(** A Python [dict] with string keys, in insertion order. *)
Definition dict : Type := list (string * value).

Fixpoint dict_get (k : string) (d : dict) : option value :=
  match d with
  | [] => None
  | (k', v) :: d' => if String.eqb k k' then Some v else dict_get k d'
  end.

Fixpoint dict_set (k : string) (v : value) (d : dict) : dict :=
  match d with
  | [] => [(k, v)]
  | (k', v') :: d' =>
      if String.eqb k k' then (k', v) :: d' else (k', v') :: dict_set k v d'
  end.

(** [dict(pairs)]: a later pair with the same key overrides the value. *)
Definition dict_of_pairs (l : list (string * value)) : dict :=
  fold_left (fun d kv => dict_set (fst kv) (snd kv) d) l [].

Definition keys (d : dict) : list string := map fst d.
Definition values (d : dict) : list value := map snd d.

(** What an endpoint returns: a list of dictionaries or one dictionary. *)
Inductive payload : Type :=
| RList (l : list dict)
| RDict (d : dict).

(** ** The store *)

(** Modelled from the spec: the declaration of table [public.memory] is not
    in the source; its columns are those named by the INSERT, UPDATE and
    SELECT statements of [app.py], with the [embedding] column a vector as in
    section 3 of the specification. *)
Record Row := {
  row_id : Z;
  row_title : string;
  row_content : string;
  row_embedding : list F;
  row_scope : string;
  row_project : option string;
  row_category : option string;
  row_tags : option (list string);
  row_source : option string;
  row_priority : Z;
  row_status : string;
  row_usage_count : Z;
  row_created_at : option Z;
  row_updated_at : option Z;
  row_last_used_at : option Z
}.

(** Modelled from the spec: [id] is "assigned by the store on creation"; the
    INSERT of [app.py] supplies none and reads it back with RETURNING, so the
    column draws from a sequence of the store. *)
Record Database := {
  memory : list Row;
  memory_id_seq : Z
}.

(** Modelled from the spec: [id] is the identifier of a record, and an
    upsert without id "always creates a new, previously-unused id"; the
    declaration of the table is not in the source, so the column is taken to
    be unique: the store refuses a new row under an id that a stored row
    has. *)
Definition id_taken (d : Database) (n : Z) : bool :=
  existsb (fun r => row_id r =? n) (memory d).

(** A psycopg2 cursor after [execute]. *)
Record Cursor := {
  description : option (list string);
  fetched : list (list value);
  rowcount : Z
}.

(** The encoder behind [model.encode(text).tolist()]. *)
Definition Encoder : Type := string -> exn + list F.

Record World := {
  model : option Encoder;
  db : Database;
  db_up : bool;
  db_log : list db_event;
  ticks : nat;
  stdout : list string
}.

Definition set_model (m : option Encoder) (w : World) : World :=
  {| model := m; db := db w; db_up := db_up w; db_log := db_log w;
     ticks := ticks w; stdout := stdout w |}.

Definition set_db (d : Database) (w : World) : World :=
  {| model := model w; db := d; db_up := db_up w; db_log := db_log w;
     ticks := ticks w; stdout := stdout w |}.

Definition log_event (e : db_event) (w : World) : World :=
  {| model := model w; db := db w; db_up := db_up w;
     db_log := (db_log w ++ [e])%list; ticks := ticks w; stdout := stdout w |}.

Definition tick (w : World) : World :=
  {| model := model w; db := db w; db_up := db_up w; db_log := db_log w;
     ticks := S (ticks w); stdout := stdout w |}.

Definition print_line (s : string) (w : World) : World :=
  {| model := model w; db := db w; db_up := db_up w; db_log := db_log w;
     ticks := ticks w; stdout := (stdout w ++ [s])%list |}.

(** ** Computations that may raise: state is kept when an exception leaves. *)

Definition M (A : Type) : Type := World -> (exn + A) * World.

Definition ret {A : Type} (a : A) : M A := fun w => (inr a, w).

Definition raise {A : Type} (e : exn) : M A := fun w => (inl e, w).

Definition bind {A B : Type} (c : M A) (k : A -> M B) : M B :=
  fun w =>
    match c w with
    | (inl e, w') => (inl e, w')
    | (inr a, w') => k a w'
    end.

Definition lift {A : Type} (r : exn + A) : M A := fun w => (r, w).

Definition effect (f : World -> World) : M unit := fun w => (inr tt, f w).

(** [try: body  except Exception as e: print(prefix + e); raise
    HTTPException(500, prefix + e)]. *)
Definition try_except {A : Type} (body : M A) (prefix : string)
  : World -> (HTTPError + A) * World :=
  fun w =>
    match body w with
    | (inr a, w') => (inr a, w')
    | (inl (Exception msg), w') =>
        (inl (HTTPException 500 (prefix ++ msg)), print_line (prefix ++ msg) w')
    end.

(** ** psycopg2 connections

    A connection carries its open transaction: the view of the database that
    its statements have produced and that [commit] makes durable.  Closing
    without commit discards it. *)

Record Connection := { pending : Database }.

Definition get_db_connection : M Connection :=
  fun w =>
    if db_up w
    then (inr {| pending := db w |}, log_event EvConnect w)
    else (inl (Exception "could not connect to server"), w).

Definition commit (conn : Connection) : M unit :=
  effect (fun w => log_event EvCommit (set_db (pending conn) w)).

Definition cursor_close : M unit := effect (log_event EvCursorClose).

Definition conn_close (conn : Connection) : M unit := effect (log_event EvClose).

(** ** The statements sent to the store *)

Inductive statement : Type :=
| SqlText (q : string)
| SqlSimilarity (columns : string) (query_embedding : list F) (limit : Z)
| SqlInsert (p_title p_content : string) (p_embedding : list F)
    (p_scope : string) (p_project p_category : option string)
    (p_tags : option (list string)) (p_source : option string)
    (p_priority : Z) (p_status : string) (p_usage_count : Z)
    (p_created_at p_updated_at : Z) (p_last_used_at : option Z)
| SqlUpdate (p_title p_content : string) (p_embedding : list F)
    (p_scope : string) (p_project p_category : option string)
    (p_tags : option (list string)) (p_source : option string)
    (p_priority : Z) (p_status : string) (p_usage_count : Z)
    (p_updated_at : Z) (p_last_used_at : option Z) (p_id : Z).

(** The columns of a row of [public.memory], by name. *)
Definition row_columns (r : Row) : dict :=
  [ ("id", VInt (row_id r));
    ("title", VStr (row_title r));
    ("content", VStr (row_content r));
    ("embedding", VVector (row_embedding r));
    ("scope", VStr (row_scope r));
    ("project", of_opt VStr (row_project r));
    ("category", of_opt VStr (row_category r));
    ("tags", of_opt VStrList (row_tags r));
    ("source", of_opt VStr (row_source r));
    ("priority", VInt (row_priority r));
    ("status", VStr (row_status r));
    ("usage_count", VInt (row_usage_count r));
    ("created_at", of_opt VTime (row_created_at r));
    ("updated_at", of_opt VTime (row_updated_at r));
    ("last_used_at", of_opt VTime (row_last_used_at r)) ].

Definition table_columns : list string :=
  [ "id"; "title"; "content"; "embedding"; "scope"; "project"; "category";
    "tags"; "source"; "priority"; "status"; "usage_count"; "created_at";
    "updated_at"; "last_used_at" ].

Definition known_column (name : string) : bool :=
  existsb (String.eqb name) table_columns.

Definition column_value (name : string) (r : Row) : value :=
  match dict_get name (row_columns r) with
  | Some v => v
  | None => VNone
  end.

Definition select_list (columns : string) : list string :=
  map PyStr.strip (PyStr.split_commas columns).

Definition project_row (names : list string) (r : Row) : list value :=
  map (fun n => column_value n r) names.

End Values.

Arguments VBool {F}.
Arguments VInt {F}.
Arguments VStr {F}.
Arguments VStrList {F}.
Arguments VTime {F}.
Arguments VFloat {F}.
Arguments VVector {F}.
Arguments is_vector {F}.
Arguments get_db_connection {F}.
Arguments cursor_close {F}.

Notation "x <- c ;; k" := (bind c (fun x => k))
  (at level 61, c at next level, right associativity).
Notation "c ;;; k" := (bind c (fun _ => k))
  (at level 61, right associativity).

(** ** The external collaborators

    What the source takes from its environment and does not define: the
    store's distance operator [<=>] and its ordering of distances (as used by
    ORDER BY); the store's execution of an arbitrary SQL text inside a
    transaction; the values that the driver or the store refuses in an INSERT
    or UPDATE; [SentenceTransformer(name, device='cpu')]; and the successive
    readings of [datetime.now()].

    [run_sql text d] executes [text] in a transaction that sees the database
    [d].  Its first component is what the cursor reports: an exception, or a
    cursor together with the transaction's view of the database, which a
    later [commit] makes durable.  Its second component is the database as it
    is durably once the text has run, whatever the caller does next: [d]
    itself for a text that leaves everything to the caller's commit, something
    else for a text that commits by itself or draws from a sequence.

    [store_rejects s] is the exception raised for the parameter values of the
    INSERT or UPDATE [s], if any: a NUL character in a text, an integer
    outside the range of its column, a vector of another dimension than the
    column's. *)
Class Externals (F : Type) : Type := {
  distance : list F -> list F -> F;
  dist_le : F -> F -> bool;
  run_sql :
    string -> Database F -> (exn + (Cursor F * Database F)) * Database F;
  store_rejects : statement F -> option exn;
  SentenceTransformer : string -> Encoder F;
  clock : nat -> Z
}.

Section Service.

Context {F : Type} {ext : Externals F}.

Definition datetime_now : M F Z :=
  fun w => (inr (clock (ticks w)), tick w).

(** ** Start-up *)

Definition load_model (w : World F) : World F :=
  print_line ("Successfully loaded model: " ++ MODEL_NAME)
    (set_model (Some (SentenceTransformer MODEL_NAME)) w).

(** ORDER BY on a key, ascending: insertion into the ordered prefix. *)
Fixpoint insert_by {A : Type} (key : A -> F) (a : A) (l : list A) : list A :=
  match l with
  | [] => [a]
  | b :: l' => if dist_le (key a) (key b) then a :: l else b :: insert_by key a l'
  end.

Definition order_by {A : Type} (key : A -> F) (l : list A) : list A :=
  fold_right (insert_by key) [] l.

(** The dimension in the cast [::vector(768)] of the ranking query. *)
Definition VECTOR_DIM : nat := 768.

(** The largest value a LIMIT clause accepts. *)
Definition BIGINT_MAX : Z := 9223372036854775807.

(** [SELECT <columns>, embedding <=> ARRAY<q>::vector(768) AS similarity
     FROM public.memory ORDER BY similarity LIMIT <limit>;] *)
Definition exec_similarity (columns : string) (q : list F) (limit : Z)
    (d : Database F) : exn + (Cursor F * Database F) :=
  let names := select_list columns in
  if negb (forallb known_column names) then
    inl (Exception "column does not exist")
  else if negb (Nat.eqb (List.length q) VECTOR_DIM) then
    inl (Exception "expected 768 dimensions")
  else if limit <? 0 then
    inl (Exception "LIMIT must not be negative")
  else if BIGINT_MAX <? limit then
    inl (Exception "bigint out of range")
  else
    let similarity := fun r => distance (row_embedding r) q in
    let out := firstn (Z.to_nat limit) (order_by similarity (memory d)) in
    inr ({| description := Some (names ++ ["similarity"])%list;
            fetched :=
              map (fun r => (project_row names r ++ [VFloat (similarity r)])%list)
                  out;
            rowcount := Z.of_nat (List.length out) |}, d).

(** [INSERT INTO public.memory (title, ..., last_used_at) VALUES (...)
     RETURNING id;]

    The result in the transaction, and the database as it is durably after
    the statement: a value drawn from the sequence stays drawn, whether the
    INSERT succeeds or not and before any commit.  An INSERT whose sequence
    value is taken is refused ([id_taken]). *)
Definition exec_insert (p_title p_content : string) (p_embedding : list F)
    (p_scope : string) (p_project p_category : option string)
    (p_tags : option (list string)) (p_source : option string)
    (p_priority : Z) (p_status : string) (p_usage_count : Z)
    (p_created_at p_updated_at : Z) (p_last_used_at : option Z)
    (d : Database F) : (exn + (Cursor F * Database F)) * Database F :=
  match store_rejects
          (SqlInsert p_title p_content p_embedding p_scope p_project
             p_category p_tags p_source p_priority p_status p_usage_count
             p_created_at p_updated_at p_last_used_at) with
  | Some e => (inl e, d)
  | None =>
      let new_id := memory_id_seq d in
      let drawn := {| memory := memory d; memory_id_seq := new_id + 1 |} in
      if id_taken d new_id then
        (inl (Exception "duplicate key value violates unique constraint"),
         drawn)
      else
        let r := {| row_id := new_id; row_title := p_title;
                    row_content := p_content; row_embedding := p_embedding;
                    row_scope := p_scope; row_project := p_project;
                    row_category := p_category; row_tags := p_tags;
                    row_source := p_source; row_priority := p_priority;
                    row_status := p_status;
                    row_usage_count := p_usage_count;
                    row_created_at := Some p_created_at;
                    row_updated_at := Some p_updated_at;
                    row_last_used_at := p_last_used_at |} in
        (inr ({| description := Some ["id"];
                 fetched := [[VInt new_id]];
                 rowcount := 1 |},
              {| memory := (memory d ++ [r])%list;
                 memory_id_seq := new_id + 1 |}),
         drawn)
  end.

(** [UPDATE public.memory SET title = .., ..., last_used_at = ..
     WHERE id = <p_id>;] *)
Definition exec_update (p_title p_content : string) (p_embedding : list F)
    (p_scope : string) (p_project p_category : option string)
    (p_tags : option (list string)) (p_source : option string)
    (p_priority : Z) (p_status : string) (p_usage_count : Z)
    (p_updated_at : Z) (p_last_used_at : option Z) (p_id : Z)
    (d : Database F) : exn + (Cursor F * Database F) :=
  match store_rejects
          (SqlUpdate p_title p_content p_embedding p_scope p_project
             p_category p_tags p_source p_priority p_status p_usage_count
             p_updated_at p_last_used_at p_id) with
  | Some e => inl e
  | None =>
  let upd := fun r =>
    if row_id r =? p_id then
      {| row_id := row_id r; row_title := p_title;
         row_content := p_content; row_embedding := p_embedding;
         row_scope := p_scope; row_project := p_project;
         row_category := p_category; row_tags := p_tags;
         row_source := p_source; row_priority := p_priority;
         row_status := p_status; row_usage_count := p_usage_count;
         row_created_at := row_created_at r;
         row_updated_at := Some p_updated_at;
         row_last_used_at := p_last_used_at |}
    else r in
  inr ({| description := None;
          fetched := [];
          rowcount :=
            Z.of_nat (List.length
                        (filter (fun r => row_id r =? p_id) (memory d))) |},
       {| memory := map upd (memory d); memory_id_seq := memory_id_seq d |})
  end.

(** A statement run in a transaction that sees [d]: the result in the
    transaction, and the database as it is durably after the statement.  The
    ranking SELECT and the UPDATE leave the durable database to the commit
    that follows. *)
Definition run_statement (s : statement F) (d : Database F)
  : (exn + (Cursor F * Database F)) * Database F :=
  match s with
  | SqlText q => run_sql q d
  | SqlSimilarity columns q limit => (exec_similarity columns q limit d, d)
  | SqlInsert a b c d0 e f g h i j k l m n =>
      exec_insert a b c d0 e f g h i j k l m n d
  | SqlUpdate a b c d0 e f g h i j k l m n =>
      (exec_update a b c d0 e f g h i j k l m n d, d)
  end.

(** [cur.execute(statement)] on a cursor of [conn]: what the statement made
    durable by itself is in the store at once, the rest waits in the
    transaction for [commit]. *)
Definition execute (conn : Connection F) (s : statement F)
  : M F (Cursor F * Connection F) :=
  fun w =>
    match run_statement s (pending conn) with
    | (inl e, durable) => (inl e, log_event EvExecute (set_db durable w))
    | (inr (cur, d'), durable) =>
        (inr (cur, {| pending := d' |}),
         log_event EvExecute (set_db durable w))
    end.

(** [[desc[0] for desc in cur.description]] *)
Definition colnames_of (cur : Cursor F) : M F (list string) :=
  match description cur with
  | Some names => ret names
  | None => raise (Exception "'NoneType' object is not iterable")
  end.

Definition fetchall (cur : Cursor F) : M F (list (list (value F))) :=
  match description cur with
  | Some _ => ret (fetched cur)
  | None => raise (Exception "no results to fetch")
  end.

(** [cur.fetchone()[0]] *)
Definition fetchone_0 (cur : Cursor F) : M F (value F) :=
  match description cur with
  | None => raise (Exception "no results to fetch")
  | Some _ =>
      match fetched cur with
      | (v :: _) :: _ => ret v
      | [] :: _ => raise (Exception "tuple index out of range")
      | [] => raise (Exception "'NoneType' object is not subscriptable")
      end
  end.

(** [[dict(zip(colnames, row)) for row in rows]] *)
Definition rows_as_dicts (colnames : list string) (rows : list (list (value F)))
  : list (dict F) :=
  map (fun row => dict_of_pairs (combine colnames row)) rows.

(** ** Application endpoints *)

Definition MODEL_NOT_LOADED : HTTPError :=
  HTTPException 503 "Model is not yet loaded or failed to load.".

(** [GET /health] *)
Definition health_check (w : World F) : dict F :=
  [ ("status", VStr "ok");
    ("model_loaded",
      VBool (match model w with Some _ => true | None => false end));
    ("model_name", VStr MODEL_NAME) ].

(** [POST /embed] *)
Definition generate_embedding (data : TextToEmbed)
  : World F -> (HTTPError + payload F) * World F :=
  fun w =>
    match model w with
    | None => (inl MODEL_NOT_LOADED, w)
    | Some m =>
        try_except
          (embedding <- lift (m (text data)) ;;
           ret (RDict [ ("embedding", VVector embedding);
                        ("model", VStr MODEL_NAME) ]))
          "Error during embedding generation: " w
    end.

(** [POST /db_query] *)
Definition query_memory (request : QueryRequest)
  : World F -> (HTTPError + payload F) * World F :=
  try_except
    (conn <- get_db_connection ;;
     r <- execute conn (SqlText (query request)) ;;
     let cur := fst r in
     let conn := snd r in
     results <-
       (if PyStr.startswith (PyStr.upper (PyStr.strip (query request)))
             "SELECT"
        then
          colnames <- colnames_of cur ;;
          rows <- fetchall cur ;;
          ret (RList (rows_as_dicts colnames rows))
        else
          commit conn ;;;
          ret (RDict [ ("status", VStr "success");
                       ("rows_affected", VInt (rowcount cur)) ])) ;;
     cursor_close ;;;
     conn_close conn ;;;
     ret results)
    "Error during query execution: ".

Definition select_columns : string :=
  "id, title, content, scope, project, category, tags, source, priority, status, usage_count, created_at, updated_at, last_used_at".

(** [POST /mem_similarity] *)
Definition similarity_memory_search (request : SimilaritySearchRequest)
  : World F -> (HTTPError + payload F) * World F :=
  fun w =>
    match model w with
    | None => (inl MODEL_NOT_LOADED, w)
    | Some m =>
        try_except
          (query_embedding <- lift (m (query_text request)) ;;
           conn <- get_db_connection ;;
           r <- execute conn
                  (SqlSimilarity select_columns query_embedding
                     (top_k request)) ;;
           let cur := fst r in
           let conn := snd r in
           colnames <- colnames_of cur ;;
           rows <- fetchall cur ;;
           let results := rows_as_dicts colnames rows in
           cursor_close ;;;
           conn_close conn ;;;
           ret (RList results))
          "Error during similarity search: " w
    end.

(** [t if t else datetime.now()] *)
Definition or_now (t : option Z) : M F Z :=
  match t with
  | Some x => ret x
  | None => datetime_now
  end.

(** [POST /mem_crud] *)
Definition insert_update_memory (record : MemoryRecord)
  : World F -> (HTTPError + payload F) * World F :=
  fun w =>
    match model w with
    | None => (inl MODEL_NOT_LOADED, w)
    | Some m =>
        try_except
          (embedding <- lift (m (content record)) ;;
           conn <- get_db_connection ;;
           results <-
             match id record with
             | None =>
                 c_at <- or_now (created_at record) ;;
                 u_at <- or_now (updated_at record) ;;
                 r <- execute conn
                        (SqlInsert (title record) (content record) embedding
                           (scope record) (project record) (category record)
                           (tags record) (source record) (priority record)
                           (status record) (usage_count record)
                           c_at u_at (last_used_at record)) ;;
                 record_id <- fetchone_0 (fst r) ;;
                 commit (snd r) ;;;
                 ret (snd r,
                      [ ("status", VStr "success");
                        ("id", record_id);
                        ("operation", VStr "insert") ])
             | Some record_id =>
                 u_at <- or_now (updated_at record) ;;
                 r <- execute conn
                        (SqlUpdate (title record) (content record) embedding
                           (scope record) (project record) (category record)
                           (tags record) (source record) (priority record)
                           (status record) (usage_count record)
                           u_at (last_used_at record) record_id) ;;
                 commit (snd r) ;;;
                 ret (snd r,
                      [ ("status", VStr "success");
                        ("id", VInt record_id);
                        ("operation", VStr "update");
                        ("rows_affected", VInt (rowcount (fst r))) ])
             end ;;
           cursor_close ;;;
           conn_close (fst results) ;;;
           ret (RDict (snd results)))
          "Error during insert/update memory: " w
    end.

End Service.

Unset Implicit Arguments.
Unset Contextual Implicit.

(** ** Vocabulary of the properties *)

Section Vocabulary.

Context {F : Type} {ext : Externals F}.

(** A stored row whose embedding is the encoder's image of its content. *)
Definition embedding_consistent (m : Encoder F) (r : Row F) : Prop :=
  m (row_content r) = inr (row_embedding r).

(** The dictionary that the ranking query yields for a stored row [r] and a
    query vector [q]: the fourteen selected columns and the distance. *)
Definition similarity_entry (q : list F) (r : Row F) : dict F :=
  [ ("id", VInt (row_id r));
    ("title", VStr (row_title r));
    ("content", VStr (row_content r));
    ("scope", VStr (row_scope r));
    ("project", of_opt VStr (row_project r));
    ("category", of_opt VStr (row_category r));
    ("tags", of_opt VStrList (row_tags r));
    ("source", of_opt VStr (row_source r));
    ("priority", VInt (row_priority r));
    ("status", VStr (row_status r));
    ("usage_count", VInt (row_usage_count r));
    ("created_at", of_opt VTime (row_created_at r));
    ("updated_at", of_opt VTime (row_updated_at r));
    ("last_used_at", of_opt VTime (row_last_used_at r));
    ("similarity", VFloat (distance (row_embedding r) q)) ].

(** Row [a] is at least as close to the query vector [q] as row [b]. *)
Definition closer (q : list F) (a b : Row F) : Prop :=
  dist_le (distance (row_embedding a) q) (distance (row_embedding b) q) = true.

(** A dictionary with no key [embedding] and no vector among its values. *)
Definition hides_embedding (d : dict F) : bool :=
  negb (existsb (String.eqb "embedding") (keys d)) &&
  negb (existsb is_vector (values d)).


End Vocabulary.

(** ** A small instance, used to evaluate the endpoints on concrete inputs

    Scalars are integers, the distance is the L1 distance, and the store
    understands three SQL texts (in any letter case, surrounding blanks
    ignored), none of which commits by itself, and rejects every other
    one. *)

Definition demo_distance (a b : list Z) : Z :=
  fold_right Z.add 0 (map (fun p => Z.abs (fst p - snd p)) (combine a b)).

Definition demo_sql (text : string) (d : Database Z)
  : (exn + (Cursor Z * Database Z)) * Database Z :=
  let q := PyStr.upper (PyStr.strip text) in
  if String.eqb q "SELECT 1" then
    (inr ({| description := Some ["?column?"];
             fetched := [[VInt 1]];
             rowcount := 1 |}, d), d)
  else if String.eqb q "VALUES (1)" then
    (inr ({| description := Some ["column1"];
             fetched := [[VInt 1]];
             rowcount := 1 |}, d), d)
  else if String.eqb q "DELETE FROM PUBLIC.MEMORY" then
    (inr ({| description := None;
             fetched := [];
             rowcount := Z.of_nat (List.length (memory d)) |},
          {| memory := []; memory_id_seq := memory_id_seq d |}), d)
  else (inl (Exception "syntax error"), d).

(** The values of a four-byte integer column. *)
Definition int4 (z : Z) : bool := (-2147483648 <=? z) && (z <=? 2147483647).

(** A store that refuses a priority or a usage count outside four bytes. *)
Definition demo_rejects (s : statement Z) : option exn :=
  match s with
  | SqlInsert _ _ _ _ _ _ _ _ p _ u _ _ _
  | SqlUpdate _ _ _ _ _ _ _ _ p _ u _ _ _ =>
      if int4 p && int4 u then None
      else Some (Exception "integer out of range")
  | _ => None
  end.

(** An encoder into 768 dimensions that rejects the empty text. *)
Definition demo_encoder : Encoder Z :=
  fun t =>
    if String.eqb t EmptyString then inl (Exception "empty input")
    else inr (repeat (Z.of_nat (String.length t)) 768).

#[export] Instance demo : Externals Z := {|
  distance := demo_distance;
  dist_le := Z.leb;
  run_sql := demo_sql;
  store_rejects := demo_rejects;
  SentenceTransformer := fun _ => demo_encoder;
  clock := fun n => 1700000000 + Z.of_nat n
|}.

Definition demo_row (i : Z) (t c : string) : Row Z := {|
  row_id := i; row_title := t; row_content := c;
  row_embedding := repeat (Z.of_nat (String.length c)) 768;
  row_scope := "global"; row_project := None; row_category := None;
  row_tags := None; row_source := None; row_priority := 0;
  row_status := "active"; row_usage_count := 0;
  row_created_at := Some 1600000000; row_updated_at := Some 1600000000;
  row_last_used_at := None
|}.

Definition demo_db : Database Z := {|
  memory := [ demo_row 1 "one" "a longer note";
              demo_row 2 "two" "hello";
              demo_row 3 "three" "hi" ];
  memory_id_seq := 4
|}.

(** The process before start-up, and after it. *)
Definition demo_cold : World Z := {|
  model := None; db := demo_db; db_up := true; db_log := [];
  ticks := 0; stdout := []
|}.

Definition demo_world : World Z := {|
  model := Some demo_encoder; db := demo_db; db_up := true; db_log := [];
  ticks := 0; stdout := []
|}.

Definition demo_record (i : option Z) (t c : string) : MemoryRecord := {|
  id := i; title := t; content := c; scope := "global"; project := None;
  category := None; tags := None; source := None; priority := 0;
  status := "active"; usage_count := 0; created_at := None;
  updated_at := None; last_used_at := None
|}.

(** ** Vocabulary of the further properties *)

(** The test of [query_memory] on the text of a statement:
    [query.strip().upper().startswith("SELECT")]. *)
Definition is_select (q : string) : bool :=
  PyStr.startswith (PyStr.upper (PyStr.strip q)) "SELECT".

(** A text made of blanks only. *)
Fixpoint all_space (s : string) : bool :=
  match s with
  | EmptyString => true
  | String c s' => PyStr.isspace c && all_space s'
  end.

Section FurtherVocabulary.

Context {F : Type}.

(** The value of the last pair of [l] whose key is [k]. *)
Fixpoint assoc_last (k : string) (l : list (string * value F))
  : option (value F) :=
  match l with
  | [] => None
  | (k', v) :: l' =>
      match assoc_last k l' with
      | Some v' => Some v'
      | None => if String.eqb k k' then Some v else None
      end
  end.

(** Stored ids are pairwise distinct and lie below the id sequence. *)
Definition ids_well_formed (d : Database F) : Prop :=
  NoDup (map (fun r => row_id r) (memory d)) /\
  Forall (fun r => row_id r < memory_id_seq d) (memory d).

(** The answer of an endpoint that failed inside its [try] block, and the
    world it leaves: the message is printed and returned. *)
Definition answer_500 {A : Type} (prefix msg : string) (w : World F)
  : (HTTPError + A) * World F :=
  (inl (HTTPException 500 (prefix ++ msg)), print_line (prefix ++ msg) w).

(** The row that an upsert of [record] without id stores. *)
Definition inserted_row (record : MemoryRecord) (e : list F)
    (new_id c_at u_at : Z) : Row F := {|
  row_id := new_id; row_title := title record;
  row_content := content record; row_embedding := e;
  row_scope := scope record; row_project := project record;
  row_category := category record; row_tags := tags record;
  row_source := source record; row_priority := priority record;
  row_status := status record; row_usage_count := usage_count record;
  row_created_at := Some c_at; row_updated_at := Some u_at;
  row_last_used_at := last_used_at record
|}.

(** What an upsert of [record] with id [i] makes of a stored row [r]. *)
Definition updated_row (record : MemoryRecord) (e : list F) (u_at i : Z)
    (r : Row F) : Row F :=
  if row_id r =? i then
    {| row_id := row_id r; row_title := title record;
       row_content := content record; row_embedding := e;
       row_scope := scope record; row_project := project record;
       row_category := category record; row_tags := tags record;
       row_source := source record; row_priority := priority record;
       row_status := status record; row_usage_count := usage_count record;
       row_created_at := row_created_at r; row_updated_at := Some u_at;
       row_last_used_at := last_used_at record |}
  else r.

(** The INSERT and the UPDATE that an upsert of [record] sends. *)
Definition insert_statement (record : MemoryRecord) (e : list F)
    (c_at u_at : Z) : statement F :=
  SqlInsert (title record) (content record) e (scope record)
    (project record) (category record) (tags record) (source record)
    (priority record) (status record) (usage_count record) c_at u_at
    (last_used_at record).

Definition update_statement (record : MemoryRecord) (e : list F)
    (u_at i : Z) : statement F :=
  SqlUpdate (title record) (content record) e (scope record)
    (project record) (category record) (tags record) (source record)
    (priority record) (status record) (usage_count record) u_at
    (last_used_at record) i.

(** The timestamp used for an optional one, and the clock reads it costs. *)
Definition stamp (clock : nat -> Z) (t : option Z) (n : nat) : Z :=
  match t with Some x => x | None => clock n end.

Definition reads (t : option Z) : nat :=
  match t with Some _ => 0%nat | None => 1%nat end.

Definition advance (n : nat) (w : World F) : World F :=
  {| model := model w; db := db w; db_up := db_up w; db_log := db_log w;
     ticks := (n + ticks w)%nat; stdout := stdout w |}.

End FurtherVocabulary.

(** A store in which no statement produces a result set, and in which
    one text commits by itself: it empties the table and ends in COMMIT, so
    the table is durably empty once it has run. *)
Definition silent_sql (text : string) (d : Database Z)
  : (exn + (Cursor Z * Database Z)) * Database Z :=
  let cur := {| description := None; fetched := []; rowcount := -1 |} in
  if String.eqb text "SELECT 1; DELETE FROM public.memory; COMMIT" then
    let emptied := {| memory := []; memory_id_seq := memory_id_seq d |} in
    (inr (cur, emptied), emptied)
  else (inr (cur, d), d).

Definition silent : Externals Z := {|
  distance := demo_distance;
  dist_le := Z.leb;
  run_sql := silent_sql;
  store_rejects := demo_rejects;
  SentenceTransformer := fun _ => demo_encoder;
  clock := fun n => 1700000000 + Z.of_nat n
|}.

Section Properties.

Context {F : Type} {ext : Externals F}.

Ltac unfold_handler :=
  unfold try_except, bind, lift, ret, raise, effect, get_db_connection,
    execute, commit, cursor_close, conn_close, or_now, datetime_now,
    colnames_of, fetchall, fetchone_0 in *.

Ltac split_outcome H :=
  unfold answer_500, MODEL_NOT_LOADED in H; cbv zeta in H;
  repeat match type of H with
         | context [match ?x with _ => _ end] => destruct x eqn:?
         end;
  inversion H; subst; clear H.

(** The raw query, outcome by outcome. *)
Lemma query_memory_outcome (request : QueryRequest) (w : World F) :
  query_memory request w =
    if db_up w then
      let durable := snd (run_sql (query request) (db w)) in
      let w1 :=
        log_event EvExecute (set_db durable (log_event EvConnect w)) in
      match fst (run_sql (query request) (db w)) with
      | inl (Exception msg) =>
          answer_500 "Error during query execution: " msg w1
      | inr (cur, view) =>
          if is_select (query request) then
            match description cur with
            | Some cols =>
                (inr (RList (rows_as_dicts cols (fetched cur))),
                 log_event EvClose (log_event EvCursorClose w1))
            | None =>
                answer_500 "Error during query execution: "
                  "'NoneType' object is not iterable" w1
            end
          else
            (inr (RDict [ ("status", VStr "success");
                          ("rows_affected", VInt (rowcount cur)) ]),
             log_event EvClose
               (log_event EvCursorClose
                  (log_event EvCommit (set_db view w1))))
      end
    else
      answer_500 "Error during query execution: "
        "could not connect to server" w.
Proof.
  unfold query_memory, is_select, answer_500. unfold_handler.
  destruct (db_up w); [|reflexivity].
  cbn -[PyStr.startswith PyStr.upper PyStr.strip].
  destruct (run_sql (query request) (db w)) as [[[msg]|[cur view]] durable];
    [reflexivity|].
  cbn -[PyStr.startswith PyStr.upper PyStr.strip].
  destruct (PyStr.startswith _ _); [|reflexivity].
  destruct (description cur); reflexivity.
Qed.

(** The upsert, outcome by outcome. *)
Lemma insert_update_memory_outcome (record : MemoryRecord) (w : World F) :
  insert_update_memory record w =
    match model w with
    | None => (inl MODEL_NOT_LOADED, w)
    | Some m =>
        match m (content record) with
        | inl (Exception msg) =>
            answer_500 "Error during insert/update memory: " msg w
        | inr e =>
            if db_up w then
              match id record with
              | None =>
                  let n1 := reads (created_at record) in
                  let n2 := reads (updated_at record) in
                  let c_at := stamp clock (created_at record) (ticks w) in
                  let u_at :=
                    stamp clock (updated_at record) (n1 + ticks w) in
                  let new_id := memory_id_seq (db w) in
                  let w1 :=
                    log_event EvExecute
                      (advance (n1 + n2) (log_event EvConnect w)) in
                  match store_rejects (insert_statement record e c_at u_at)
                  with
                  | Some (Exception msg) =>
                      answer_500 "Error during insert/update memory: " msg w1
                  | None =>
                      if id_taken (db w) new_id then
                        answer_500 "Error during insert/update memory: "
                          "duplicate key value violates unique constraint"
                          (set_db {| memory := memory (db w);
                                     memory_id_seq := new_id + 1 |} w1)
                      else
                        (inr (RDict [ ("status", VStr "success");
                                      ("id", VInt new_id);
                                      ("operation", VStr "insert") ]),
                         log_event EvClose
                           (log_event EvCursorClose
                              (log_event EvCommit
                                 (set_db
                                    {| memory :=
                                         (memory (db w) ++
                                          [inserted_row record e new_id
                                             c_at u_at])%list;
                                       memory_id_seq := new_id + 1 |}
                                    w1))))
                  end
              | Some i =>
                  let n2 := reads (updated_at record) in
                  let u_at := stamp clock (updated_at record) (ticks w) in
                  let w1 :=
                    log_event EvExecute
                      (advance n2 (log_event EvConnect w)) in
                  match store_rejects (update_statement record e u_at i)
                  with
                  | Some (Exception msg) =>
                      answer_500 "Error during insert/update memory: " msg w1
                  | None =>
                      (inr (RDict [ ("status", VStr "success");
                                    ("id", VInt i);
                                    ("operation", VStr "update");
                                    ("rows_affected",
                                      VInt (Z.of_nat
                                              (List.length
                                                 (filter
                                                    (fun r => row_id r =? i)
                                                    (memory (db w)))))) ]),
                       log_event EvClose
                         (log_event EvCursorClose
                            (log_event EvCommit
                               (set_db
                                  {| memory :=
                                       map (updated_row record e u_at i)
                                         (memory (db w));
                                     memory_id_seq :=
                                       memory_id_seq (db w) |}
                                  w1))))
                  end
              end
            else
              answer_500 "Error during insert/update memory: "
                "could not connect to server" w
        end
    end.
Proof.
  unfold insert_update_memory, answer_500.
  destruct (model w) as [m|]; [|reflexivity].
  unfold_handler.
  destruct (m (content record)) as [[msg]|e]; [reflexivity|].
  destruct (db_up w); [|reflexivity].
  unfold run_statement, exec_insert, exec_update, insert_statement,
    update_statement.
  destruct (id record) as [i|].
  - destruct (updated_at record); cbn -[id_taken];
      destruct (store_rejects _) as [[msg]|]; reflexivity.
  - destruct (created_at record), (updated_at record); cbn -[id_taken];
      (destruct (store_rejects _) as [[msg]|]; [reflexivity|]);
      destruct (id_taken _ _); reflexivity.
Qed.

(** Start-up sets the handle and touches nothing of the store. *)
Lemma load_model_sets_handle (w : World F) :
  model (load_model w) = Some (SentenceTransformer MODEL_NAME) /\
  db (load_model w) = db w /\
  db_log (load_model w) = db_log w.
Proof. repeat split. Qed.

(** C4: while the model handle is unset, the three embedding-dependent
    endpoints answer with HTTP 503 and leave the world as it is, and the
    health check reports [model_loaded] false. *)
Theorem model_unavailable_before_init (w : World F) :
  model w = None ->
  (forall data,
      generate_embedding data w =
        (inl (HTTPException 503 "Model is not yet loaded or failed to load."),
         w)) /\
  (forall request,
      similarity_memory_search request w =
        (inl (HTTPException 503 "Model is not yet loaded or failed to load."),
         w)) /\
  (forall record,
      insert_update_memory record w =
        (inl (HTTPException 503 "Model is not yet loaded or failed to load."),
         w)) /\
  dict_get "model_loaded" (health_check w) = Some (VBool false).
Proof.
  intros Hm.
  unfold generate_embedding, similarity_memory_search, insert_update_memory,
    health_check.
  rewrite Hm. repeat split.
Qed.

(** C2: when [model.encode] raises on the record's content, the upsert
    answers with an HTTP 500 error, opens no connection, executes no
    statement and leaves the stored state unchanged. *)
Theorem embedding_failure_aborts_before_storage
    (record : MemoryRecord) (w : World F) (m : Encoder F) (msg : string) :
  model w = Some m ->
  m (content record) = inl (Exception msg) ->
  exists w',
    insert_update_memory record w =
      (inl (HTTPException 500 ("Error during insert/update memory: " ++ msg)),
       w') /\
    db w' = db w /\
    db_log w' = db_log w /\
    ticks w' = ticks w.
Proof.
  intros Hm He.
  unfold insert_update_memory. rewrite Hm.
  unfold_handler. rewrite He. cbn.
  eexists; split; [reflexivity | repeat split].
Qed.

Lemma map_update_consistent (m : Encoder F) (upd : Row F -> Row F)
    (i : Z) (l : list (Row F)) :
  (forall r, row_id r = i -> embedding_consistent m (upd r)) ->
  (forall r, row_id r <> i -> upd r = r) ->
  Forall (embedding_consistent m) l ->
  Forall (embedding_consistent m) (map upd l).
Proof.
  intros Hhit Hmiss Hall.
  induction Hall as [|r l Hr _ IH]; simpl; constructor; auto.
  destruct (Z.eq_dec (row_id r) i) as [E|E].
  - apply Hhit; exact E.
  - rewrite (Hmiss r E); exact Hr.
Qed.

(** C1: after a successful upsert of a record with content [c], every row
    that the operation wrote holds [c] together with the encoder's image of
    [c]: on the insert path the appended row (whose id is the one returned),
    on the update path every row carrying the given id; all other rows are
    left as they were, so a store whose rows all agree with the encoder still
    does after the upsert. *)
Theorem stored_embedding_consistency
    (record : MemoryRecord) (w w' : World F) (m : Encoder F)
    (res : payload F) :
  model w = Some m ->
  insert_update_memory record w = (inr res, w') ->
  exists e,
    m (content record) = inr e /\
    match id record with
    | None =>
        exists r,
          memory (db w') = (memory (db w) ++ [r])%list /\
          row_content r = content record /\
          row_embedding r = e /\
          exists d, res = RDict d /\ dict_get "id" d = Some (VInt (row_id r))
    | Some i =>
        Forall2
          (fun old new =>
             row_id new = row_id old /\
             if row_id old =? i
             then row_content new = content record /\ row_embedding new = e
             else new = old)
          (memory (db w)) (memory (db w'))
    end /\
    (Forall (embedding_consistent m) (memory (db w)) ->
     Forall (embedding_consistent m) (memory (db w'))).
Proof.
  intros Hm Hrun.
  rewrite insert_update_memory_outcome, Hm in Hrun.
  destruct (m (content record)) as [[msg]|e] eqn:He;
    [unfold answer_500 in Hrun; discriminate|].
  exists e. split; [reflexivity|].
  split_outcome Hrun; cbn.
  - split.
    + induction (memory (db w)) as [|r l IH]; cbn; constructor; auto.
      unfold updated_row. destruct (row_id r =? _); cbn; auto.
    + intros Hall.
      match goal with
      | |- Forall _ (map (updated_row _ _ _ ?j) _) =>
          apply map_update_consistent with (i := j)
      end.
      * intros r Hr. unfold embedding_consistent, updated_row.
        rewrite (proj2 (Z.eqb_eq _ _) Hr). cbn. exact He.
      * intros r Hr. unfold updated_row.
        rewrite (proj2 (Z.eqb_neq _ _) Hr). reflexivity.
      * exact Hall.
  - split.
    + eexists. split; [reflexivity|]. cbn. repeat split.
      eexists. split; reflexivity.
    + intros Hall. apply Forall_app. split; [exact Hall|].
      constructor; [exact He | constructor].
Qed.

Lemma select_list_select_columns :
  select_list select_columns =
    [ "id"; "title"; "content"; "scope"; "project"; "category"; "tags";
      "source"; "priority"; "status"; "usage_count"; "created_at";
      "updated_at"; "last_used_at" ].
Proof. vm_compute. reflexivity. Qed.

Lemma select_columns_known :
  forallb known_column (select_list select_columns) = true.
Proof. vm_compute. reflexivity. Qed.

Lemma map_on_miss (f : Row F -> Row F) (i : Z) (l : list (Row F)) :
  (forall r, row_id r <> i -> f r = r) ->
  (forall r, In r l -> row_id r <> i) ->
  map f l = l.
Proof.
  intros Hf. induction l as [|r l IH]; intros Hmiss; simpl; [reflexivity|].
  rewrite Hf by (apply Hmiss; left; reflexivity).
  rewrite IH by (intros r' Hr'; apply Hmiss; right; exact Hr').
  reflexivity.
Qed.

Lemma filter_on_miss (i : Z) (l : list (Row F)) :
  (forall r, In r l -> row_id r <> i) ->
  filter (fun r => row_id r =? i) l = [].
Proof.
  induction l as [|r l IH]; intros Hmiss; simpl; [reflexivity|].
  assert (E : (row_id r =? i) = false)
    by (apply Z.eqb_neq; apply Hmiss; left; reflexivity).
  rewrite E. apply IH. intros r' Hr'; apply Hmiss; right; exact Hr'.
Qed.

(** C8: an upsert whose id matches no stored record, and whose UPDATE the
    store accepts, succeeds, reports [rows_affected] 0, and leaves the table
    and the id sequence as they were: no record is created, no id is
    allocated, no error is raised. *)
Theorem update_missing_id_is_silent_noop
    (record : MemoryRecord) (w : World F) (m : Encoder F) (e : list F)
    (i : Z) :
  model w = Some m ->
  m (content record) = inr e ->
  db_up w = true ->
  id record = Some i ->
  store_rejects
    (update_statement record e
       (stamp clock (updated_at record) (ticks w)) i) = None ->
  (forall r, In r (memory (db w)) -> row_id r <> i) ->
  exists w',
    insert_update_memory record w =
      (inr (RDict [ ("status", VStr "success");
                    ("id", VInt i);
                    ("operation", VStr "update");
                    ("rows_affected", VInt 0) ]), w') /\
    memory (db w') = memory (db w) /\
    memory_id_seq (db w') = memory_id_seq (db w).
Proof.
  intros Hm He Hup Hid Hacc Hmiss.
  rewrite insert_update_memory_outcome, Hm, He, Hup, Hid. cbv zeta.
  rewrite Hacc, (filter_on_miss i _ Hmiss).
  eexists. split; [reflexivity|]. cbn.
  split; [|reflexivity].
  apply map_on_miss with (i := i); [|exact Hmiss].
  intros r Hr. unfold updated_row.
  rewrite (proj2 (Z.eqb_neq _ _) Hr). reflexivity.
Qed.

Lemma similarity_rows_as_dicts (q : list F) (out : list (Row F)) :
  rows_as_dicts (select_list select_columns ++ ["similarity"])%list
    (map (fun r =>
            (project_row (select_list select_columns) r ++
             [VFloat (distance (row_embedding r) q)])%list) out) =
  map (similarity_entry q) out.
Proof.
  unfold rows_as_dicts. rewrite map_map. apply map_ext.
  intros r. rewrite select_list_select_columns. reflexivity.
Qed.

(** What the ranking query returns when the store accepts it. *)
Lemma similarity_search_success
    (request : SimilaritySearchRequest) (w : World F) (m : Encoder F)
    (q : list F) :
  model w = Some m ->
  m (query_text request) = inr q ->
  db_up w = true ->
  List.length q = VECTOR_DIM ->
  0 <= top_k request <= BIGINT_MAX ->
  similarity_memory_search request w =
    (inr (RList
            (map (similarity_entry q)
               (firstn (Z.to_nat (top_k request))
                  (order_by (fun r => distance (row_embedding r) q)
                     (memory (db w)))))),
     log_event EvClose
       (log_event EvCursorClose
          (log_event EvExecute (log_event EvConnect w)))).
Proof.
  intros Hm He Hup Hdim [Hlo Hhi].
  unfold similarity_memory_search. rewrite Hm.
  unfold_handler. rewrite He, Hup. cbn -[exec_similarity].
  unfold exec_similarity.
  rewrite select_columns_known, Hdim, Nat.eqb_refl.
  rewrite (proj2 (Z.ltb_ge _ _) Hlo), (proj2 (Z.ltb_ge _ _) Hhi).
  cbn -[select_list rows_as_dicts project_row].
  rewrite similarity_rows_as_dicts. reflexivity.
Qed.

(** Whenever the ranking endpoint answers, the answer has that form. *)
Lemma similarity_search_inversion
    (request : SimilaritySearchRequest) (w w' : World F) (res : payload F) :
  similarity_memory_search request w = (inr res, w') ->
  exists m q,
    model w = Some m /\
    m (query_text request) = inr q /\
    db_up w = true /\
    List.length q = VECTOR_DIM /\
    0 <= top_k request <= BIGINT_MAX /\
    res = RList
            (map (similarity_entry q)
               (firstn (Z.to_nat (top_k request))
                  (order_by (fun r => distance (row_embedding r) q)
                     (memory (db w))))) /\
    db w' = db w.
Proof.
  intros Hrun.
  destruct (model w) as [m|] eqn:Hm;
    [|unfold similarity_memory_search in Hrun; rewrite Hm in Hrun;
      discriminate].
  destruct (m (query_text request)) as [[msg]|q] eqn:He;
    [unfold similarity_memory_search in Hrun; rewrite Hm in Hrun;
     unfold_handler; rewrite He in Hrun; discriminate|].
  destruct (db_up w) eqn:Hup;
    [|unfold similarity_memory_search in Hrun; rewrite Hm in Hrun;
      unfold_handler; rewrite He, Hup in Hrun; discriminate].
  destruct (Nat.eqb (List.length q) VECTOR_DIM) eqn:Hdim;
    [|unfold similarity_memory_search in Hrun; rewrite Hm in Hrun;
      unfold_handler; rewrite He, Hup in Hrun; cbn -[exec_similarity] in Hrun;
      unfold exec_similarity in Hrun;
      rewrite select_columns_known, Hdim in Hrun; discriminate].
  apply Nat.eqb_eq in Hdim.
  destruct (top_k request <? 0) eqn:Hlo;
    [unfold similarity_memory_search in Hrun; rewrite Hm in Hrun;
     unfold_handler; rewrite He, Hup in Hrun; cbn -[exec_similarity] in Hrun;
     unfold exec_similarity in Hrun;
     rewrite select_columns_known, Hdim, Nat.eqb_refl, Hlo in Hrun;
     discriminate|].
  destruct (BIGINT_MAX <? top_k request) eqn:Hhi;
    [unfold similarity_memory_search in Hrun; rewrite Hm in Hrun;
     unfold_handler; rewrite He, Hup in Hrun; cbn -[exec_similarity] in Hrun;
     unfold exec_similarity in Hrun;
     rewrite select_columns_known, Hdim, Nat.eqb_refl, Hlo, Hhi in Hrun;
     discriminate|].
  apply Z.ltb_ge in Hlo. apply Z.ltb_ge in Hhi.
  rewrite (similarity_search_success request w m q Hm He Hup Hdim
             (conj Hlo Hhi)) in Hrun.
  inversion Hrun; subst; clear Hrun.
  exists m, q. repeat split; auto.
Qed.

(** C10: the ranking endpoint does not check that [top_k] is positive: a
    request with [top_k] 0 is sent to the store as LIMIT 0 and answered with
    the empty sequence; the declared default is 5. *)
Theorem top_k_zero_is_accepted
    (request : SimilaritySearchRequest) (w : World F) (m : Encoder F)
    (q : list F) :
  model w = Some m ->
  m (query_text request) = inr q ->
  List.length q = VECTOR_DIM ->
  db_up w = true ->
  top_k request = 0 ->
  default_top_k = 5 /\
  exists w',
    similarity_memory_search request w = (inr (RList []), w') /\
    db w' = db w.
Proof.
  intros Hm He Hdim Hup Hk. split; [reflexivity|].
  eexists. split.
  - rewrite (similarity_search_success request w m q Hm He Hup Hdim)
      by (rewrite Hk; unfold BIGINT_MAX; lia).
    rewrite Hk. reflexivity.
  - reflexivity.
Qed.

(** *** Ranking *)

Lemma insert_by_perm {A : Type} (key : A -> F) (a : A) (l : list A) :
  Permutation (insert_by key a l) (a :: l).
Proof.
  induction l as [|b l IH]; simpl; [apply Permutation_refl|].
  destruct (dist_le (key a) (key b)); [apply Permutation_refl|].
  apply Permutation_trans with (b :: a :: l).
  - apply perm_skip. exact IH.
  - apply perm_swap.
Qed.

Lemma order_by_perm {A : Type} (key : A -> F) (l : list A) :
  Permutation (order_by key l) l.
Proof.
  induction l as [|a l IH]; simpl; [apply Permutation_refl|].
  apply Permutation_trans with (a :: order_by key l).
  - apply insert_by_perm.
  - apply perm_skip. exact IH.
Qed.

Lemma in_firstn {A : Type} (n : nat) (l : list A) (x : A) :
  In x (firstn n l) -> In x l.
Proof.
  intros Hx. rewrite <- (firstn_skipn n l).
  apply in_or_app. left. exact Hx.
Qed.

Lemma firstn_strongly_sorted {A : Type} (R : A -> A -> Prop) (n : nat)
    (l : list A) :
  StronglySorted R l -> StronglySorted R (firstn n l).
Proof.
  intros Hs. revert n.
  induction Hs as [|a l Hs IH Ha]; intros [|n]; simpl; try constructor.
  - apply IH.
  - rewrite Forall_forall in *. intros x Hx. apply Ha.
    eapply in_firstn; exact Hx.
Qed.

Section Ranking.

(** The store orders any two distances, and its order is transitive. *)
Hypothesis dist_le_total :
  forall a b : F, dist_le a b = true \/ dist_le b a = true.
Hypothesis dist_le_trans :
  forall a b c : F,
    dist_le a b = true -> dist_le b c = true -> dist_le a c = true.

Lemma insert_by_sorted {A : Type} (key : A -> F) (a : A) (l : list A) :
  StronglySorted (fun x y => dist_le (key x) (key y) = true) l ->
  StronglySorted (fun x y => dist_le (key x) (key y) = true)
    (insert_by key a l).
Proof.
  intros Hs. induction Hs as [|b l Hs IH Hb]; simpl.
  - constructor; constructor.
  - destruct (dist_le (key a) (key b)) eqn:E.
    + constructor; [constructor; assumption|].
      constructor; [exact E|].
      rewrite Forall_forall in *. intros x Hx.
      eapply dist_le_trans; [exact E | apply Hb; exact Hx].
    + constructor; [exact IH|].
      assert (Hba : dist_le (key b) (key a) = true).
      { destruct (dist_le_total (key a) (key b)) as [H|H];
          [rewrite H in E; discriminate | exact H]. }
      apply (Permutation_Forall (Permutation_sym (insert_by_perm key a l))).
      constructor; assumption.
Qed.

Lemma order_by_sorted {A : Type} (key : A -> F) (l : list A) :
  StronglySorted (fun x y => dist_le (key x) (key y) = true) (order_by key l).
Proof.
  induction l as [|a l IH]; simpl; [constructor|].
  apply insert_by_sorted. exact IH.
Qed.

(** C3: with [top_k > 0], every answer of the similarity search lists stored
    records closest first: it is the first [top_k] entries of an arrangement
    of all stored rows in non-decreasing distance to the query embedding, so
    it has at most [top_k] entries, and exactly as many as there are rows
    when these are fewer.  The search does answer whenever the model is
    loaded, the text is encoded into the expected dimension, the store is
    reachable and [top_k] is one that a LIMIT clause takes. *)
Theorem similarity_search_ordered_truncated
    (request : SimilaritySearchRequest) (w : World F) :
  0 < top_k request ->
  (forall res w',
      similarity_memory_search request w = (inr res, w') ->
      exists m q ranked,
        model w = Some m /\
        m (query_text request) = inr q /\
        Permutation ranked (memory (db w)) /\
        StronglySorted (closer q) ranked /\
        let results := firstn (Z.to_nat (top_k request)) ranked in
        res = RList (map (similarity_entry q) results) /\
        StronglySorted (closer q) results /\
        Z.of_nat (List.length results) <= top_k request /\
        List.length results =
          Nat.min (Z.to_nat (top_k request)) (List.length (memory (db w)))) /\
  (forall m q,
      model w = Some m ->
      m (query_text request) = inr q ->
      List.length q = VECTOR_DIM ->
      db_up w = true ->
      top_k request <= BIGINT_MAX ->
      exists res w', similarity_memory_search request w = (inr res, w')).
Proof.
  intros Hpos. split.
  - intros res w' Hrun.
    destruct (similarity_search_inversion request w w' res Hrun)
      as (m & q & Hm & He & _ & _ & _ & Hres & _).
    exists m, q, (order_by (fun r => distance (row_embedding r) q)
                    (memory (db w))).
    split; [exact Hm|]. split; [exact He|].
    split; [apply order_by_perm|].
    split; [apply (order_by_sorted (fun r => distance (row_embedding r) q))|].
    cbv zeta. split; [exact Hres|].
    split;
      [apply firstn_strongly_sorted;
       apply (order_by_sorted (fun r => distance (row_embedding r) q))|].
    rewrite length_firstn.
    rewrite (Permutation_length
               (order_by_perm (fun r => distance (row_embedding r) q)
                  (memory (db w)))).
    split; [lia | reflexivity].
  - intros m q Hm He Hdim Hup Hhi.
    eexists. eexists.
    apply (similarity_search_success request w m q Hm He Hup Hdim).
    lia.
Qed.

End Ranking.

(** *** Result shapes *)

Lemma sequence_value_is_fresh (l : list (Row F)) (next : Z) :
  Forall (fun old => row_id old < next) l ->
  ~ In next (map (fun r => row_id r) l).
Proof.
  intros Hall Hin. apply in_map_iff in Hin. destruct Hin as (r & Hr & Hin).
  rewrite Forall_forall in Hall. specialize (Hall r Hin). lia.
Qed.

Lemma map_row_id_update (f : Row F -> Row F) (l : list (Row F)) :
  (forall r, row_id (f r) = row_id r) ->
  map (fun r => row_id r) (map f l) = map (fun r => row_id r) l.
Proof.
  intros Hf. rewrite map_map. apply map_ext. exact Hf.
Qed.

(** The payload of a successful upsert. *)
Lemma upsert_payload
    (record : MemoryRecord) (w w' : World F) (res : payload F) :
  insert_update_memory record w = (inr res, w') ->
  match id record with
  | None =>
      res = RDict [ ("status", VStr "success");
                    ("id", VInt (memory_id_seq (db w)));
                    ("operation", VStr "insert") ]
  | Some i =>
      exists n,
        res = RDict [ ("status", VStr "success");
                      ("id", VInt i);
                      ("operation", VStr "update");
                      ("rows_affected", VInt n) ]
  end.
Proof.
  intros Hrun.
  rewrite insert_update_memory_outcome in Hrun.
  split_outcome Hrun; [eexists; reflexivity | reflexivity].
Qed.

Lemma id_not_taken (d : Database F) (n : Z) :
  id_taken d n = false ->
  ~ In n (map (fun r => row_id r) (memory d)).
Proof.
  unfold id_taken.
  intros Hex Hin. apply in_map_iff in Hin. destruct Hin as (r & Hr & Hin).
  assert (Htrue : existsb (fun r => row_id r =? n) (memory d) = true).
  { apply existsb_exists. exists r. split; [exact Hin|].
    apply Z.eqb_eq. exact Hr. }
  rewrite Htrue in Hex. discriminate Hex.
Qed.

(** C6: the result of a successful upsert.  Without an id it inserts one
    new row, whose id the store assigns (the next value of its sequence, an
    id that no stored row has) and whose [created_at] and [updated_at] are
    the given ones or else the current time, and answers with that new id as
    [{status: success, id, operation: insert}], the create response of
    Scenario 1.  With an id it answers
    [{status: success, id, operation: update, rows_affected}] with the number
    of rows carrying that id; it adds no row and draws no id. *)
Theorem upsert_result_shape
    (record : MemoryRecord) (w w' : World F) (res : payload F) :
  insert_update_memory record w = (inr res, w') ->
  match id record with
  | None =>
      res = RDict [ ("status", VStr "success");
                    ("id", VInt (memory_id_seq (db w)));
                    ("operation", VStr "insert") ] /\
      exists r,
        memory (db w') = (memory (db w) ++ [r])%list /\
        row_id r = memory_id_seq (db w) /\
        ~ In (row_id r) (map (fun old => row_id old) (memory (db w))) /\
        memory_id_seq (db w') = memory_id_seq (db w) + 1 /\
        row_created_at r =
          Some (match created_at record with
                | Some t => t
                | None => clock (ticks w)
                end) /\
        row_updated_at r =
          Some (match updated_at record with
                | Some t => t
                | None =>
                    clock (match created_at record with
                           | Some _ => ticks w
                           | None => S (ticks w)
                           end)
                end)
  | Some i =>
      res = RDict [ ("status", VStr "success");
                    ("id", VInt i);
                    ("operation", VStr "update");
                    ("rows_affected",
                      VInt (Z.of_nat
                              (List.length
                                 (filter (fun r => row_id r =? i)
                                    (memory (db w)))))) ] /\
      map (fun r => row_id r) (memory (db w')) =
        map (fun r => row_id r) (memory (db w)) /\
      memory_id_seq (db w') = memory_id_seq (db w)
  end.
Proof.
  intros Hrun.
  rewrite insert_update_memory_outcome in Hrun.
  split_outcome Hrun; cbn.
  - split; [reflexivity|]. split; [|reflexivity].
    apply map_row_id_update. intros r. unfold updated_row.
    destruct (row_id r =? _); reflexivity.
  - split; [reflexivity|]. eexists. split; [reflexivity|]. cbn.
    split; [reflexivity|].
    split; [apply id_not_taken; assumption|].
    split; [reflexivity|].
    destruct (created_at record), (updated_at record); cbn;
      split; reflexivity.
Qed.

Lemma similarity_entry_hides_embedding (q : list F) (r : Row F) :
  hides_embedding (similarity_entry q r) = true.
Proof.
  destruct r as [i t c e sc pr ca tg so p st u cr up lu].
  destruct pr, ca, tg, so, cr, up, lu; reflexivity.
Qed.

(** C9: the select list of the ranking query does not name the embedding
    column; every dictionary answered by the similarity search has no key
    [embedding] and no vector among its values; and the answer of an upsert
    has its keys among status, id, operation and rows_affected, again with no
    vector among its values. *)
Theorem embedding_hidden_from_outputs :
  ~ In "embedding" (select_list select_columns) /\
  (forall (request : SimilaritySearchRequest) (w w' : World F) res,
      similarity_memory_search request w = (inr res, w') ->
      exists ds, res = RList ds /\ forallb hides_embedding ds = true) /\
  (forall (record : MemoryRecord) (w w' : World F) res,
      insert_update_memory record w = (inr res, w') ->
      exists d,
        res = RDict d /\
        hides_embedding d = true /\
        incl (keys d) ["status"; "id"; "operation"; "rows_affected"]).
Proof.
  split; [|split].
  - rewrite select_list_select_columns. cbn.
    intros H; repeat (destruct H as [H|H]; [discriminate H|]); exact H.
  - intros request w w' res Hrun.
    destruct (similarity_search_inversion request w w' res Hrun)
      as (m & q & _ & _ & _ & _ & _ & Hres & _).
    eexists. split; [exact Hres|].
    apply forallb_forall. intros d Hd.
    apply in_map_iff in Hd. destruct Hd as (r & <- & _).
    apply similarity_entry_hides_embedding.
  - intros record w w' res Hrun.
    pose proof (upsert_payload record w w' res Hrun) as Hshape.
    destruct (id record) as [i|].
    + destruct Hshape as [n ->]. eexists. split; [reflexivity|].
      split; [reflexivity|].
      intros k Hk; cbn in *; tauto.
    + rewrite Hshape. eexists. split; [reflexivity|].
      split; [reflexivity|].
      intros k Hk; cbn in *; tauto.
Qed.

(** *** The raw query *)


(** *** Connections *)

Lemma open_connections_app (l l' : list db_event) :
  open_connections (l ++ l') = open_connections l + open_connections l'.
Proof.
  unfold open_connections, count_events.
  rewrite !filter_app, !length_app. lia.
Qed.

(** An endpoint that answers has released the connection it acquired. *)
Lemma query_memory_success_releases
    (request : QueryRequest) (w w' : World F) (res : payload F) :
  query_memory request w = (inr res, w') ->
  open_connections (db_log w') = open_connections (db_log w).
Proof.
  intros H. rewrite query_memory_outcome in H.
  split_outcome H; cbn; rewrite !open_connections_app; cbn; lia.
Qed.

(** A statement that the store rejects leaves the connection open: the
    handler of the exception answers without closing it. *)
Lemma query_memory_failure_keeps_connection
    (request : QueryRequest) (w : World F) (msg : string) :
  db_up w = true ->
  fst (run_sql (query request) (db w)) = inl (Exception msg) ->
  exists w',
    query_memory request w =
      (inl (HTTPException 500 ("Error during query execution: " ++ msg)),
       w') /\
    db_log w' = (db_log w ++ [EvConnect; EvExecute])%list /\
    open_connections (db_log w') = open_connections (db_log w) + 1.
Proof.
  intros Hup Hrun.
  rewrite query_memory_outcome, Hup. cbv zeta. rewrite Hrun.
  unfold answer_500.
  eexists. split; [reflexivity|]. cbn.
  split; [repeat rewrite <- app_assoc; reflexivity|].
  rewrite !open_connections_app; cbn; lia.
Qed.

(** A negative [top_k] reaches the store as a negative LIMIT, which it
    rejects; the connection opened for the query stays open. *)
Lemma similarity_search_failure_keeps_connection
    (request : SimilaritySearchRequest) (w : World F) (m : Encoder F)
    (q : list F) :
  model w = Some m ->
  m (query_text request) = inr q ->
  db_up w = true ->
  List.length q = VECTOR_DIM ->
  top_k request < 0 ->
  exists w',
    similarity_memory_search request w =
      (inl (HTTPException 500
              "Error during similarity search: LIMIT must not be negative"),
       w') /\
    db_log w' = (db_log w ++ [EvConnect; EvExecute])%list /\
    open_connections (db_log w') = open_connections (db_log w) + 1.
Proof.
  intros Hm He Hup Hdim Hneg.
  unfold similarity_memory_search. rewrite Hm.
  unfold_handler. rewrite He, Hup. cbn -[exec_similarity].
  unfold exec_similarity.
  rewrite select_columns_known, Hdim, Nat.eqb_refl.
  rewrite (proj2 (Z.ltb_lt _ _) Hneg). cbn.
  eexists. split; [reflexivity|]. cbn.
  split; [repeat rewrite <- app_assoc; reflexivity|].
  unfold open_connections, count_events.
  repeat rewrite filter_app. repeat rewrite length_app. cbn. lia.
Qed.

End Properties.

(** ** The properties on the small instance *)

Lemma Zleb_total (a b : Z) : Z.leb a b = true \/ Z.leb b a = true.
Proof.
  destruct (Z.leb a b) eqn:E; [left; reflexivity|].
  right. apply Z.leb_le. apply Z.leb_gt in E. lia.
Qed.

Lemma Zleb_trans (a b c : Z) :
  Z.leb a b = true -> Z.leb b c = true -> Z.leb a c = true.
Proof.
  intros H1 H2. apply Z.leb_le in H1. apply Z.leb_le in H2.
  apply Z.leb_le. lia.
Qed.

Lemma model_unavailable_before_init_witness :
  model demo_cold = None /\
  generate_embedding {| text := "hello" |} demo_cold =
    (inl (HTTPException 503 "Model is not yet loaded or failed to load."),
     demo_cold) /\
  similarity_memory_search {| query_text := "hello"; top_k := 3 |} demo_cold =
    (inl (HTTPException 503 "Model is not yet loaded or failed to load."),
     demo_cold) /\
  insert_update_memory (demo_record None "A" "hello world") demo_cold =
    (inl (HTTPException 503 "Model is not yet loaded or failed to load."),
     demo_cold) /\
  dict_get "model_loaded" (health_check demo_cold) = Some (VBool false).
Proof.
  split; [reflexivity|].
  destruct (model_unavailable_before_init demo_cold eq_refl)
    as (H1 & H2 & H3 & H4).
  split; [apply H1 | split; [apply H2 | split; [apply H3 | exact H4]]].
Defined.

Lemma embedding_failure_aborts_before_storage_witness :
  model demo_world = Some demo_encoder /\
  demo_encoder (content (demo_record None "A" EmptyString)) =
    inl (Exception "empty input") /\
  exists w',
    insert_update_memory (demo_record None "A" EmptyString) demo_world =
      (inl (HTTPException 500
              ("Error during insert/update memory: " ++ "empty input")),
       w') /\
    db w' = db demo_world /\
    db_log w' = db_log demo_world /\
    ticks w' = ticks demo_world.
Proof.
  split; [reflexivity|]. split; [reflexivity|].
  apply (embedding_failure_aborts_before_storage
           (demo_record None "A" EmptyString) demo_world demo_encoder "empty input");
    reflexivity.
Defined.

Lemma stored_embedding_consistency_witness :
  let record := demo_record None "A" "hello world" in
  model demo_world = Some demo_encoder /\
  exists res w',
    insert_update_memory record demo_world = (inr res, w') /\
    exists e,
      demo_encoder (content record) = inr e /\
      (exists r,
          memory (db w') = (memory (db demo_world) ++ [r])%list /\
          row_content r = content record /\
          row_embedding r = e /\
          exists d, res = RDict d /\ dict_get "id" d = Some (VInt (row_id r)))
      /\
      (Forall (embedding_consistent demo_encoder) (memory (db demo_world)) ->
       Forall (embedding_consistent demo_encoder) (memory (db w'))).
Proof.
  intros record. split; [reflexivity|].
  destruct (insert_update_memory record demo_world) as [[err|res] w'] eqn:E.
  - vm_compute in E. discriminate E.
  - exists res, w'. split; [reflexivity|].
    exact (stored_embedding_consistency record demo_world w' demo_encoder res
             eq_refl E).
Defined.

Lemma similarity_search_ordered_truncated_witness :
  let request := {| query_text := "hello"; top_k := 2 |} in
  0 < top_k request /\
  exists res w',
    similarity_memory_search request demo_world = (inr res, w') /\
    exists m q ranked,
      model demo_world = Some m /\
      m (query_text request) = inr q /\
      Permutation ranked (memory (db demo_world)) /\
      StronglySorted (closer q) ranked /\
      let results := firstn (Z.to_nat (top_k request)) ranked in
      res = RList (map (similarity_entry q) results) /\
      StronglySorted (closer q) results /\
      Z.of_nat (List.length results) <= top_k request /\
      List.length results =
        Nat.min (Z.to_nat (top_k request))
          (List.length (memory (db demo_world))).
Proof.
  intros request.
  assert (Hpos : 0 < top_k request) by (cbn; lia).
  split; [exact Hpos|].
  pose proof (similarity_search_ordered_truncated (ext := demo)
                Zleb_total Zleb_trans request demo_world Hpos) as [Hres Hex].
  destruct (Hex demo_encoder (repeat 5 768) eq_refl eq_refl eq_refl eq_refl)
    as (res & w' & E).
  - unfold BIGINT_MAX; cbn; lia.
  - exists res, w'. split; [exact E|]. exact (Hres res w' E).
Defined.

Lemma update_missing_id_is_silent_noop_witness :
  let record := demo_record (Some 9999) "X" "changed" in
  model demo_world = Some demo_encoder /\
  demo_encoder (content record) = inr (repeat 7 768) /\
  db_up demo_world = true /\
  id record = Some 9999 /\
  store_rejects
    (update_statement record (repeat 7 768)
       (stamp clock (updated_at record) (ticks demo_world)) 9999) = None /\
  (forall r, In r (memory (db demo_world)) -> row_id r <> 9999) /\
  exists w',
    insert_update_memory record demo_world =
      (inr (RDict [ ("status", VStr "success");
                    ("id", VInt 9999);
                    ("operation", VStr "update");
                    ("rows_affected", VInt 0) ]), w') /\
    memory (db w') = memory (db demo_world) /\
    memory_id_seq (db w') = memory_id_seq (db demo_world).
Proof.
  intros record.
  assert (Hmiss : forall r, In r (memory (db demo_world)) -> row_id r <> 9999).
  { intros r [<-|[<-|[<-|[]]]]; cbn; lia. }
  split; [reflexivity|]. split; [reflexivity|]. split; [reflexivity|].
  split; [reflexivity|]. split; [reflexivity|]. split; [exact Hmiss|].
  exact (update_missing_id_is_silent_noop record demo_world demo_encoder
           (repeat 7 768) 9999 eq_refl eq_refl eq_refl eq_refl eq_refl
           Hmiss).
Defined.

Lemma top_k_zero_is_accepted_witness :
  let request := {| query_text := "hello"; top_k := 0 |} in
  model demo_world = Some demo_encoder /\
  demo_encoder (query_text request) = inr (repeat 5 768) /\
  List.length (repeat 5 768) = VECTOR_DIM /\
  db_up demo_world = true /\
  top_k request = 0 /\
  default_top_k = 5 /\
  exists w',
    similarity_memory_search request demo_world = (inr (RList []), w') /\
    db w' = db demo_world.
Proof.
  intros request.
  split; [reflexivity|]. split; [reflexivity|]. split; [reflexivity|].
  split; [reflexivity|]. split; [reflexivity|].
  exact (top_k_zero_is_accepted request demo_world demo_encoder
           (repeat 5 768) eq_refl eq_refl eq_refl eq_refl eq_refl).
Defined.

Lemma upsert_result_shape_witness :
  let record := demo_record None "A" "hello world" in
  exists res w',
    insert_update_memory record demo_world = (inr res, w') /\
    res = RDict [ ("status", VStr "success");
                  ("id", VInt (memory_id_seq (db demo_world)));
                  ("operation", VStr "insert") ] /\
    exists r,
      memory (db w') = (memory (db demo_world) ++ [r])%list /\
      row_id r = memory_id_seq (db demo_world) /\
      ~ In (row_id r) (map (fun old => row_id old) (memory (db demo_world)))
      /\
      memory_id_seq (db w') = memory_id_seq (db demo_world) + 1 /\
      row_created_at r = Some (clock (ticks demo_world)) /\
      row_updated_at r = Some (clock (S (ticks demo_world))).
Proof.
  intros record.
  destruct (insert_update_memory record demo_world) as [[err|res] w'] eqn:E.
  - vm_compute in E. discriminate E.
  - exists res, w'. split; [reflexivity|].
    exact (upsert_result_shape record demo_world w' res E).
Defined.



Lemma embedding_hidden_from_outputs_witness :
  ~ In "embedding" (select_list select_columns) /\
  (exists ds,
      fst (similarity_memory_search {| query_text := "hello"; top_k := 3 |}
             demo_world) = inr (RList ds) /\
      List.length ds = 3%nat /\
      forallb hides_embedding ds = true) /\
  (exists d,
      fst (insert_update_memory (demo_record (Some 2) "two" "changed")
             demo_world) = inr (RDict d) /\
      hides_embedding d = true /\
      incl (keys d) ["status"; "id"; "operation"; "rows_affected"]).
Proof.
  destruct (embedding_hidden_from_outputs (ext := demo)) as (H0 & H1 & H2).
  split; [exact H0|]. split.
  - destruct (similarity_memory_search {| query_text := "hello"; top_k := 3 |}
                demo_world) as [[err|res] w'] eqn:E.
    + vm_compute in E. discriminate E.
    + destruct (H1 _ _ _ _ E) as (ds & -> & Hds).
      exists ds. split; [reflexivity|]. split; [|exact Hds].
      vm_compute in E. inversion E. reflexivity.
  - destruct (insert_update_memory (demo_record (Some 2) "two" "changed")
                demo_world) as [[err|res] w'] eqn:E.
    + vm_compute in E. discriminate E.
    + destruct (H2 _ _ _ _ E) as (d & -> & Hd).
      exists d. split; [reflexivity|]. exact Hd.
Defined.

(** C5 fails on the exception path: a statement that the store rejects, or
    a negative [top_k], is answered with HTTP 500 while the connection
    acquired for the request is still open; the answering paths do release
    it. *)
Theorem connection_kept_open_on_failure :
  open_connections (db_log demo_world) = 0 /\
  (let out := query_memory {| query := "SELEC 1" |} demo_world in
   fst out = inl (HTTPException 500
                    "Error during query execution: syntax error") /\
   db_log (snd out) = [EvConnect; EvExecute] /\
   open_connections (db_log (snd out)) = 1) /\
  (let out :=
     similarity_memory_search {| query_text := "hello"; top_k := -1 |}
       demo_world in
   fst out = inl (HTTPException 500
                    "Error during similarity search: LIMIT must not be negative") /\
   db_log (snd out) = [EvConnect; EvExecute] /\
   open_connections (db_log (snd out)) = 1) /\
  (let out := query_memory {| query := "SELECT 1" |} demo_world in
   fst out = inr (RList [[("?column?", VInt 1)]]) /\
   open_connections (db_log (snd out)) = 0).
Proof.
  cbv zeta. repeat split; vm_compute; reflexivity.
Qed.

(** ** Further properties of the code *)

Ltac run_monad :=
  unfold try_except, bind, lift, ret, raise, effect, get_db_connection,
    execute, commit, cursor_close, conn_close, or_now, datetime_now,
    colnames_of, fetchall, fetchone_0 in *.

(** *** The text test of the raw query *)

Lemma isspace_upper_char (c : ascii) :
  PyStr.isspace (PyStr.upper_char c) = PyStr.isspace c.
Proof.
  destruct c as [[] [] [] [] [] [] [] []]; reflexivity.
Qed.

Lemma upper_char_idempotent (c : ascii) :
  PyStr.upper_char (PyStr.upper_char c) = PyStr.upper_char c.
Proof.
  destruct c as [[] [] [] [] [] [] [] []]; reflexivity.
Qed.

Lemma upper_idempotent (s : string) :
  PyStr.upper (PyStr.upper s) = PyStr.upper s.
Proof.
  induction s as [|c s IH]; simpl; [reflexivity|].
  rewrite upper_char_idempotent, IH. reflexivity.
Qed.

Lemma lstrip_upper (s : string) :
  PyStr.lstrip (PyStr.upper s) = PyStr.upper (PyStr.lstrip s).
Proof.
  induction s as [|c s IH]; simpl; [reflexivity|].
  rewrite isspace_upper_char.
  destruct (PyStr.isspace c); [exact IH | reflexivity].
Qed.

Lemma rstrip_upper (s : string) :
  PyStr.rstrip (PyStr.upper s) = PyStr.upper (PyStr.rstrip s).
Proof.
  induction s as [|c s IH]; simpl; [reflexivity|].
  rewrite IH, isspace_upper_char.
  destruct (PyStr.rstrip s); simpl; [|reflexivity].
  destruct (PyStr.isspace c); reflexivity.
Qed.

Lemma strip_upper (s : string) :
  PyStr.strip (PyStr.upper s) = PyStr.upper (PyStr.strip s).
Proof.
  unfold PyStr.strip. rewrite lstrip_upper, rstrip_upper. reflexivity.
Qed.

Lemma lstrip_leading_blanks (ws s : string) :
  all_space ws = true ->
  PyStr.lstrip (ws ++ s) = PyStr.lstrip s.
Proof.
  induction ws as [|c ws IH]; simpl; intros H; [reflexivity|].
  apply andb_prop in H. destruct H as [Hc Hws].
  rewrite Hc. apply IH. exact Hws.
Qed.

(** The test that sends a raw statement to the read branch looks through
    leading blanks and through letter case: statements that agree once
    upper-cased are classified alike. *)
Theorem is_select_ignores_case_and_leading_blanks (ws q q' : string) :
  all_space ws = true ->
  PyStr.upper q = PyStr.upper q' ->
  is_select (ws ++ q) = is_select q'.
Proof.
  intros Hws Hq. unfold is_select, PyStr.strip.
  rewrite (lstrip_leading_blanks ws q Hws).
  fold (PyStr.strip q). fold (PyStr.strip q').
  rewrite <- !strip_upper, Hq. reflexivity.
Qed.

Lemma is_select_ignores_case_and_leading_blanks_witness :
  all_space "  " = true /\
  PyStr.upper "select * from t" = PyStr.upper "SELECT * FROM T" /\
  is_select ("  " ++ "select * from t") = is_select "SELECT * FROM T".
Proof.
  split; [reflexivity|]. split; [reflexivity|].
  exact (is_select_ignores_case_and_leading_blanks
           "  " "select * from t" "SELECT * FROM T" eq_refl eq_refl).
Defined.

Section FurtherProperties.

Context {F : Type} {ext : Externals F}.

(** *** Rows as dictionaries *)

Lemma dict_get_set (k k' : string) (v : value F) (d : dict F) :
  dict_get k (dict_set k' v d) =
    if String.eqb k k' then Some v else dict_get k d.
Proof.
  induction d as [|[k0 v0] d IH]; simpl.
  - destruct (String.eqb k k'); reflexivity.
  - destruct (String.eqb k' k0) eqn:E0; simpl.
    + apply String.eqb_eq in E0. subst k0.
      destruct (String.eqb k k'); reflexivity.
    + destruct (String.eqb k k0) eqn:E1.
      * apply String.eqb_eq in E1. subst k0.
        rewrite String.eqb_sym in E0. rewrite E0. reflexivity.
      * exact IH.
Qed.

Lemma dict_set_keys (k : string) (v : value F) (d : dict F) :
  NoDup (keys d) ->
  NoDup (keys (dict_set k v d)) /\
  (forall x, In x (keys (dict_set k v d)) <-> x = k \/ In x (keys d)).
Proof.
  unfold keys.
  induction d as [|[k0 v0] d IH]; simpl; intros Hnd.
  - split; [constructor; [intros []|constructor]|].
    intros x; split; intros H; [destruct H as [H|[]]; left; auto|].
    destruct H as [H|[]]; left; auto.
  - inversion Hnd as [|? ? Hk0 Hd]; subst.
    destruct (IH Hd) as [IH1 IH2].
    destruct (String.eqb k k0) eqn:E; simpl.
    + apply String.eqb_eq in E. subst k0.
      split; [exact Hnd|]. intros x; split; intros H; [right; exact H|].
      destruct H as [H|H]; [left; auto | exact H].
    + split.
      * constructor; [|exact IH1].
        intros Hin. apply IH2 in Hin. destruct Hin as [Hin|Hin].
        -- subst k0. rewrite String.eqb_refl in E. discriminate.
        -- exact (Hk0 Hin).
      * intros x. rewrite IH2. tauto.
Qed.

Lemma dict_set_fresh (k : string) (v : value F) (d : dict F) :
  ~ In k (keys d) -> dict_set k v d = (d ++ [(k, v)])%list.
Proof.
  unfold keys. induction d as [|[k0 v0] d IH]; simpl; intros Hk;
    [reflexivity|].
  destruct (String.eqb k k0) eqn:E.
  - apply String.eqb_eq in E. subst k0. exfalso. apply Hk. left; reflexivity.
  - rewrite IH; [reflexivity|]. intros H; apply Hk; right; exact H.
Qed.

Lemma fold_dict_set (l : list (string * value F)) (d : dict F) :
  NoDup (keys d) ->
  let d' := fold_left (fun d kv => dict_set (fst kv) (snd kv) d) l d in
  NoDup (keys d') /\
  (forall k,
      dict_get k d' =
        match assoc_last k l with
        | Some v => Some v
        | None => dict_get k d
        end) /\
  (NoDup (map fst l) ->
   (forall k, In k (map fst l) -> ~ In k (keys d)) ->
   d' = (d ++ l)%list).
Proof.
  revert d. induction l as [|[k0 v0] l IH]; simpl; intros d Hnd.
  - split; [exact Hnd|]. split; [reflexivity|].
    intros _ _. rewrite app_nil_r. reflexivity.
  - destruct (dict_set_keys k0 v0 d Hnd) as [Hnd' Hkeys].
    destruct (IH (dict_set k0 v0 d) Hnd') as (I1 & I2 & I3).
    split; [exact I1|]. split.
    + intros k. rewrite I2. destruct (assoc_last k l); [reflexivity|].
      rewrite dict_get_set. destruct (String.eqb k k0); reflexivity.
    + intros Hl Hdis. inversion Hl as [|? ? Hk0 Hl']; subst.
      rewrite I3.
      * rewrite dict_set_fresh by (apply Hdis; left; reflexivity).
        rewrite <- app_assoc. reflexivity.
      * exact Hl'.
      * intros k Hk Hin. apply Hkeys in Hin. destruct Hin as [->|Hin].
        -- exact (Hk0 Hk).
        -- exact (Hdis k (or_intror Hk) Hin).
Qed.

(** [dict(zip(colnames, row))] keeps one entry for each column name; a name
    that occurs more than once keeps the value of its last occurrence, and
    with pairwise distinct names every pair is kept, in order. *)
Theorem dict_of_pairs_last_wins (l : list (string * value F)) :
  NoDup (keys (dict_of_pairs l)) /\
  (forall k, dict_get k (dict_of_pairs l) = assoc_last k l) /\
  (NoDup (map fst l) -> dict_of_pairs l = l).
Proof.
  destruct (fold_dict_set l [] (NoDup_nil _)) as (H1 & H2 & H3).
  unfold dict_of_pairs.
  split; [exact H1|]. split.
  - intros k. rewrite (H2 k). destruct (assoc_last k l); reflexivity.
  - intros Hl. apply H3; [exact Hl|]. intros k _ [].
Qed.

End FurtherProperties.

Lemma dict_of_pairs_last_wins_witness :
  let l := combine ["id"; "name"; "id"] [@VInt Z 1; VStr "a"; VInt 2] in
  NoDup (keys (dict_of_pairs l)) /\
  dict_get "id" (dict_of_pairs l) = Some (VInt 2) /\
  dict_of_pairs (combine ["id"; "name"] [@VInt Z 1; VStr "a"]) =
    [("id", VInt 1); ("name", VStr "a")].
Proof.
  intros l.
  destruct (dict_of_pairs_last_wins l) as (H1 & H2 & _).
  destruct (dict_of_pairs_last_wins
              (combine ["id"; "name"] [@VInt Z 1; VStr "a"])) as (_ & _ & H3).
  split; [exact H1|]. split; [rewrite H2; reflexivity|].
  apply H3. repeat constructor; simpl; intuition discriminate.
Defined.

Section EndpointOutcomes.

Context {F : Type} {ext : Externals F}.

(** The similarity search, outcome by outcome. *)
Lemma similarity_memory_search_outcome
    (request : SimilaritySearchRequest) (w : World F) :
  similarity_memory_search request w =
    match model w with
    | None => (inl MODEL_NOT_LOADED, w)
    | Some m =>
        match m (query_text request) with
        | inl (Exception msg) =>
            answer_500 "Error during similarity search: " msg w
        | inr q =>
            if db_up w then
              let w1 := log_event EvExecute (log_event EvConnect w) in
              if negb (Nat.eqb (List.length q) VECTOR_DIM) then
                answer_500 "Error during similarity search: "
                  "expected 768 dimensions" w1
              else if top_k request <? 0 then
                answer_500 "Error during similarity search: "
                  "LIMIT must not be negative" w1
              else if BIGINT_MAX <? top_k request then
                answer_500 "Error during similarity search: "
                  "bigint out of range" w1
              else
                (inr (RList
                        (map (similarity_entry q)
                           (firstn (Z.to_nat (top_k request))
                              (order_by
                                 (fun r => distance (row_embedding r) q)
                                 (memory (db w)))))),
                 log_event EvClose (log_event EvCursorClose w1))
            else
              answer_500 "Error during similarity search: "
                "could not connect to server" w
        end
    end.
Proof.
  unfold similarity_memory_search, answer_500.
  destruct (model w) as [m|]; [|reflexivity].
  run_monad.
  destruct (m (query_text request)) as [[msg]|q]; [reflexivity|].
  destruct (db_up w); [|reflexivity].
  cbn -[exec_similarity]. unfold exec_similarity.
  rewrite select_columns_known.
  cbn -[select_list rows_as_dicts project_row Nat.eqb VECTOR_DIM Z.ltb
        BIGINT_MAX].
  destruct (Nat.eqb (List.length q) VECTOR_DIM); [|reflexivity].
  cbn -[select_list rows_as_dicts project_row Z.ltb BIGINT_MAX].
  destruct (top_k request <? 0); [reflexivity|].
  destruct (BIGINT_MAX <? top_k request); [reflexivity|].
  cbn -[select_list rows_as_dicts project_row].
  rewrite similarity_rows_as_dicts. reflexivity.
Qed.

(** The embedding endpoint, outcome by outcome. *)
Lemma generate_embedding_outcome (data : TextToEmbed) (w : World F) :
  generate_embedding data w =
    match model w with
    | None => (inl MODEL_NOT_LOADED, w)
    | Some m =>
        match m (text data) with
        | inl (Exception msg) =>
            answer_500 "Error during embedding generation: " msg w
        | inr e =>
            (inr (RDict [ ("embedding", VVector e);
                          ("model", VStr MODEL_NAME) ]), w)
        end
    end.
Proof.
  unfold generate_embedding, answer_500.
  destruct (model w) as [m|]; [|reflexivity].
  run_monad.
  destruct (m (text data)) as [[msg]|e]; reflexivity.
Qed.

End EndpointOutcomes.

Section FurtherEndpointProperties.

Context {F : Type} {ext : Externals F}.

Ltac split_cases H :=
  unfold answer_500, MODEL_NOT_LOADED in H;
  repeat match type of H with
         | context [match ?x with _ => _ end] => destruct x eqn:?
         end;
  inversion H; subst; clear H.

Ltac failure_facts :=
  cbn; split; [reflexivity|];
  split; [first [reflexivity | assumption]|];
  first [ left; repeat split; first [reflexivity | assumption]
        | right; repeat split; reflexivity ].

Ltac release_facts :=
  cbn; split; [reflexivity|];
  split; [first [reflexivity | assumption]|];
  rewrite !open_connections_app; cbn; lia.




(** An endpoint that answers prints nothing, keeps the model handle, and
    has released the connection it acquired, if any. *)
Theorem answers_print_nothing_and_release
    (w w' : World F) (res : payload F) :
  (exists data, generate_embedding data w = (inr res, w')) \/
  (exists request, query_memory request w = (inr res, w')) \/
  (exists request, similarity_memory_search request w = (inr res, w')) \/
  (exists record, insert_update_memory record w = (inr res, w')) ->
  stdout w' = stdout w /\
  model w' = model w /\
  open_connections (db_log w') = open_connections (db_log w).
Proof.
  intros [[data H]|[[request H]|[[request H]|[record H]]]].
  - rewrite generate_embedding_outcome in H. split_cases H; cbn.
    repeat split; first [reflexivity | assumption].
  - rewrite query_memory_outcome in H. cbv zeta in H.
    split_cases H; release_facts.
  - rewrite similarity_memory_search_outcome in H. cbv zeta in H.
    split_cases H; release_facts.
  - rewrite insert_update_memory_outcome in H. cbv zeta in H.
    split_cases H; release_facts.
Qed.

(** The similarity search and the embedding endpoint leave the store
    alone in every outcome: the committed data is unchanged, the clock is
    not read, the search commits nothing and the embedding endpoint opens no
    connection. *)
Theorem read_endpoints_leave_store_alone (w w' : World F) :
  (forall request r,
      similarity_memory_search request w = (r, w') ->
      db w' = db w /\ ticks w' = ticks w /\
      exists l, db_log w' = (db_log w ++ l)%list /\ ~ In EvCommit l) /\
  (forall data r,
      generate_embedding data w = (r, w') ->
      db w' = db w /\ ticks w' = ticks w /\ db_log w' = db_log w).
Proof.
  split.
  - intros request r H.
    rewrite similarity_memory_search_outcome in H. cbv zeta in H.
    split_cases H; cbn; (split; [reflexivity|]); (split; [reflexivity|]).
    all: first
      [ exists []; split; [rewrite app_nil_r; reflexivity | intros []]
      | exists [EvConnect; EvExecute]; split;
        [rewrite <- !app_assoc; reflexivity
        | cbn; intros [E|[E|[]]]; discriminate E]
      | exists [EvConnect; EvExecute; EvCursorClose; EvClose]; split;
        [rewrite <- !app_assoc; reflexivity
        | cbn; intros [E|[E|[E|[E|[]]]]]; discriminate E] ].
  - intros data r H.
    rewrite generate_embedding_outcome in H.
    split_cases H; cbn; repeat split.
Qed.

(** When the store cannot be reached, [get_db_connection] raises and each
    endpoint that needs the store answers 500 with nothing but the printed
    line changed: no connection, no statement, no commit. *)
Theorem unreachable_store_is_a_500 (w : World F) :
  db_up w = false ->
  (forall request,
      exists detail,
        query_memory request w =
          (inl (HTTPException 500 detail), print_line detail w)) /\
  (forall request m q,
      model w = Some m ->
      m (query_text request) = inr q ->
      exists detail,
        similarity_memory_search request w =
          (inl (HTTPException 500 detail), print_line detail w)) /\
  (forall record m e,
      model w = Some m ->
      m (content record) = inr e ->
      exists detail,
        insert_update_memory record w =
          (inl (HTTPException 500 detail), print_line detail w)).
Proof.
  intros Hdown. split; [|split].
  - intros request. rewrite query_memory_outcome, Hdown.
    eexists; reflexivity.
  - intros request m q Hm Hq.
    rewrite similarity_memory_search_outcome, Hm, Hq, Hdown.
    eexists; reflexivity.
  - intros record m e Hm He.
    rewrite insert_update_memory_outcome, Hm, He, Hdown.
    eexists; reflexivity.
Qed.

(** A statement that passes the SELECT test, that the store executes, and
    for which it gives no result set makes the read branch fail on
    [cur.description]: the answer is a 500, the endpoint commits nothing, so
    that the store is left as the statement itself left it, and the
    connection stays open. *)
Theorem select_without_result_set_is_a_500
    (request : QueryRequest) (w : World F) (cur : Cursor F)
    (view durable : Database F) :
  db_up w = true ->
  run_sql (query request) (db w) = (inr (cur, view), durable) ->
  is_select (query request) = true ->
  description cur = None ->
  exists detail w',
    query_memory request w = (inl (HTTPException 500 detail), w') /\
    db w' = durable /\
    db_log w' = (db_log w ++ [EvConnect; EvExecute])%list /\
    open_connections (db_log w') = open_connections (db_log w) + 1.
Proof.
  intros Hup Hrun Hsel Hdesc.
  rewrite query_memory_outcome, Hup, Hrun. cbv zeta. cbn [fst snd].
  rewrite Hsel, Hdesc. unfold answer_500.
  eexists; eexists. split; [reflexivity|]. cbn.
  split; [reflexivity|].
  split; [rewrite <- !app_assoc; reflexivity|].
  rewrite !open_connections_app; cbn; lia.
Qed.

(** The store rejects the ranking query when [top_k] is negative or the
    query vector has not 768 components: the answer is a 500, the stored
    data is unchanged, and the connection stays open. *)
Theorem similarity_search_rejected_by_store
    (request : SimilaritySearchRequest) (w : World F) (m : Encoder F)
    (q : list F) :
  model w = Some m ->
  m (query_text request) = inr q ->
  db_up w = true ->
  top_k request < 0 \/ List.length q <> VECTOR_DIM ->
  exists detail w',
    similarity_memory_search request w =
      (inl (HTTPException 500 detail), w') /\
    db w' = db w /\
    db_log w' = (db_log w ++ [EvConnect; EvExecute])%list.
Proof.
  intros Hm Hq Hup Hbad.
  rewrite similarity_memory_search_outcome, Hm, Hq, Hup. cbv zeta.
  unfold answer_500.
  destruct (Nat.eqb (List.length q) VECTOR_DIM) eqn:Hdim; cbn [negb].
  - destruct Hbad as [Hneg|Hlen];
      [|apply Nat.eqb_eq in Hdim; contradiction].
    rewrite (proj2 (Z.ltb_lt _ _) Hneg).
    eexists; eexists. split; [reflexivity|]. cbn.
    split; [reflexivity | rewrite <- !app_assoc; reflexivity].
  - eexists; eexists. split; [reflexivity|]. cbn.
    split; [reflexivity | rewrite <- !app_assoc; reflexivity].
Qed.

(** *** What an upsert writes *)

Lemma Forall2_map_self {A : Type} (R : A -> A -> Prop) (f : A -> A)
    (l : list A) :
  (forall x, R x (f x)) -> Forall2 R l (map f l).
Proof.
  intros HR. induction l as [|x l IH]; simpl; constructor; auto.
Qed.

(** An update is a full overwrite, not a patch: every stored row with the
    given id takes each caller-owned field from the record, absent optional
    ones included, and [updated_at] from the record or else the clock; its id
    and [created_at] stay; rows with another id are not touched. *)
Theorem update_overwrites_every_field
    (record : MemoryRecord) (w w' : World F) (res : payload F) (i : Z) :
  id record = Some i ->
  insert_update_memory record w = (inr res, w') ->
  Forall2
    (fun old new =>
       row_id new = row_id old /\
       row_created_at new = row_created_at old /\
       (row_id old <> i -> new = old) /\
       (row_id old = i ->
        row_title new = title record /\
        row_scope new = scope record /\
        row_project new = project record /\
        row_category new = category record /\
        row_tags new = tags record /\
        row_source new = source record /\
        row_priority new = priority record /\
        row_status new = status record /\
        row_usage_count new = usage_count record /\
        row_last_used_at new = last_used_at record /\
        row_updated_at new =
          Some (match updated_at record with
                | Some t => t
                | None => clock (ticks w)
                end)))
    (memory (db w)) (memory (db w')).
Proof.
  intros Hid H.
  rewrite insert_update_memory_outcome, Hid in H. cbv zeta in H.
  split_cases H. cbn.
  apply Forall2_map_self. intros old. unfold updated_row.
  destruct (row_id old =? i) eqn:E; cbn.
  - apply Z.eqb_eq in E.
    split; [reflexivity|]. split; [reflexivity|].
    split; [intros Hne; contradiction|].
    intros _. unfold stamp. repeat split.
  - apply Z.eqb_neq in E.
    split; [reflexivity|]. split; [reflexivity|].
    split; [reflexivity|]. intros He; contradiction.
Qed.

(** The vector that an upsert stores is the one the embedding endpoint
    answers for the record's content afterwards: every row that the upsert
    wrote carries it. *)
Theorem upsert_agrees_with_embed_endpoint
    (record : MemoryRecord) (w w' : World F) (res : payload F) :
  insert_update_memory record w = (inr res, w') ->
  exists e,
    generate_embedding {| text := content record |} w' =
      (inr (RDict [ ("embedding", VVector e); ("model", VStr MODEL_NAME) ]),
       w') /\
    (forall r,
        In r (memory (db w')) -> ~ In r (memory (db w)) ->
        row_embedding r = e /\ row_content r = content record).
Proof.
  intros H.
  rewrite insert_update_memory_outcome in H. cbv zeta in H.
  split_cases H.
  - match goal with He : _ (content record) = inr ?e |- _ => exists e end.
    split.
    + rewrite generate_embedding_outcome. cbn.
      match goal with Hm : model w = Some _ |- _ => rewrite Hm end.
      match goal with He : _ (content record) = inr _ |- _ => rewrite He end.
      reflexivity.
    + cbn. intros r Hin Hold. apply in_map_iff in Hin.
      destruct Hin as (old & <- & Hin). unfold updated_row in *.
      destruct (row_id old =? _); [split; reflexivity | contradiction].
  - match goal with He : _ (content record) = inr ?e |- _ => exists e end.
    split.
    + rewrite generate_embedding_outcome. cbn.
      match goal with Hm : model w = Some _ |- _ => rewrite Hm end.
      match goal with He : _ (content record) = inr _ |- _ => rewrite He end.
      reflexivity.
    + cbn. intros r Hin Hold. apply in_app_or in Hin.
      destruct Hin as [Hin|[<-|[]]]; [contradiction | split; reflexivity].
Qed.

(** *** Requests in sequence *)

(** A created record is found again: after a successful upsert without id,
    a similarity search whose [top_k] exceeds the number of rows stored
    before answers with every row, among them the new record under the id
    that the upsert returned and with the fields as they were sent. *)
Theorem insert_then_search_finds_record
    (record : MemoryRecord) (request : SimilaritySearchRequest)
    (w w1 : World F) (res : payload F) (m : Encoder F) (q : list F) :
  id record = None ->
  insert_update_memory record w = (inr res, w1) ->
  model w = Some m ->
  m (query_text request) = inr q ->
  List.length q = VECTOR_DIM ->
  Z.of_nat (List.length (memory (db w))) < top_k request <= BIGINT_MAX ->
  exists e ds w2,
    m (content record) = inr e /\
    res = RDict [ ("status", VStr "success");
                  ("id", VInt (memory_id_seq (db w)));
                  ("operation", VStr "insert") ] /\
    similarity_memory_search request w1 = (inr (RList ds), w2) /\
    List.length ds = S (List.length (memory (db w))) /\
    In (similarity_entry q
          (inserted_row record e (memory_id_seq (db w))
             (stamp clock (created_at record) (ticks w))
             (stamp clock (updated_at record)
                (reads (created_at record) + ticks w))))
       ds.
Proof.
  intros Hid H Hm Hq Hdim [Hlo Hhi].
  rewrite insert_update_memory_outcome, Hid, Hm in H. cbv zeta in H.
  split_cases H.
  match goal with He : m (content record) = inr ?e |- _ => exists e end.
  eexists. eexists.
  split; [reflexivity|]. split; [reflexivity|].
  split.
  - apply similarity_search_success with (m := m) (q := q);
      first [assumption | reflexivity | split; lia].
  - cbn -[order_by].
    set (new := inserted_row _ _ _ _ _).
    set (key := fun r : Row F => distance (row_embedding r) q).
    pose proof (order_by_perm key (memory (db w) ++ [new])) as Hperm.
    assert (Hlen : List.length (order_by key (memory (db w) ++ [new])) =
                   S (List.length (memory (db w)))).
    { rewrite (Permutation_length Hperm), length_app. cbn. lia. }
    rewrite firstn_all2 by (rewrite Hlen; lia).
    split; [rewrite length_map; exact Hlen|].
    apply in_map.
    apply (Permutation_in _ (Permutation_sym Hperm)).
    apply in_or_app. right. left. reflexivity.
Qed.

Ltac world_fields H :=
  cbn [model db db_up ticks db_log stdout log_event set_db advance
       memory memory_id_seq] in H.

(** When two records are created one after the other, both rows are
    appended in that order under the ids that the two answers carry, and the
    second id is greater than the first. *)
Theorem successive_inserts_get_distinct_ids
    (r1 r2 : MemoryRecord) (w w1 w2 : World F) (res1 res2 : payload F) :
  id r1 = None ->
  id r2 = None ->
  insert_update_memory r1 w = (inr res1, w1) ->
  insert_update_memory r2 w1 = (inr res2, w2) ->
  exists a b,
    res1 = RDict [ ("status", VStr "success");
                   ("id", VInt (row_id a));
                   ("operation", VStr "insert") ] /\
    res2 = RDict [ ("status", VStr "success");
                   ("id", VInt (row_id b));
                   ("operation", VStr "insert") ] /\
    memory (db w2) = (memory (db w) ++ [a; b])%list /\
    row_id a < row_id b /\
    row_content a = content r1 /\
    row_content b = content r2 /\
    row_id b < memory_id_seq (db w2).
Proof.
  intros Hid1 Hid2 H1 H2.
  rewrite insert_update_memory_outcome, Hid1 in H1. split_cases H1.
  rewrite insert_update_memory_outcome, Hid2 in H2. world_fields H2.
  split_cases H2.
  eexists. eexists.
  split; [|split; [|split]].
  3: { cbn. rewrite <- app_assoc. cbn. reflexivity. }
  - reflexivity.
  - reflexivity.
  - cbn. repeat split; lia.
Qed.

(** Create, then update under the returned id: when the update answers, it
    reports exactly one affected row, the row just created, which then holds
    the new content and its embedding and keeps its [created_at]; the rows
    stored before are as they were. *)
Theorem insert_then_update_hits_the_new_row
    (r1 r2 : MemoryRecord) (w w1 w2 : World F) (res1 res2 : payload F)
    (m : Encoder F) (e2 : list F) :
  id r1 = None ->
  insert_update_memory r1 w = (inr res1, w1) ->
  id r2 = Some (memory_id_seq (db w)) ->
  model w = Some m ->
  m (content r2) = inr e2 ->
  insert_update_memory r2 w1 = (inr res2, w2) ->
  exists old new,
    res1 = RDict [ ("status", VStr "success");
                   ("id", VInt (memory_id_seq (db w)));
                   ("operation", VStr "insert") ] /\
    res2 = RDict [ ("status", VStr "success");
                   ("id", VInt (memory_id_seq (db w)));
                   ("operation", VStr "update");
                   ("rows_affected", VInt 1) ] /\
    memory (db w1) = (memory (db w) ++ [old])%list /\
    memory (db w2) = (memory (db w) ++ [new])%list /\
    row_id new = memory_id_seq (db w) /\
    row_content new = content r2 /\
    row_embedding new = e2 /\
    row_created_at new = row_created_at old.
Proof.
  intros Hid1 H1 Hid2 Hm He2 H2.
  rewrite insert_update_memory_outcome, Hid1, Hm in H1. split_cases H1.
  assert (Hmiss : forall r, In r (memory (db w)) ->
                            row_id r <> memory_id_seq (db w)).
  { intros r Hin Heq.
    match goal with
    | Hex : id_taken _ _ = false |- _ => apply (id_not_taken _ _ Hex)
    end.
    rewrite <- Heq. apply in_map. exact Hin. }
  rewrite insert_update_memory_outcome, Hid2 in H2. world_fields H2.
  rewrite Hm, He2 in H2.
  split_cases H2.
  eexists. eexists.
  split; [reflexivity|]. split.
  - rewrite filter_app, (filter_on_miss _ _ Hmiss). cbn.
    rewrite Z.eqb_refl. reflexivity.
  - cbn. split; [reflexivity|].
    rewrite map_app.
    rewrite (map_on_miss _ (memory_id_seq (db w)) (memory (db w)));
      [ | intros r Hr; unfold updated_row;
          rewrite (proj2 (Z.eqb_neq _ _) Hr); reflexivity
        | exact Hmiss ].
    cbn. unfold updated_row at 1. cbn. rewrite Z.eqb_refl.
    split; [reflexivity|]. repeat split.
Qed.

(** *** Identifiers *)

Lemma filter_id_at_most_one (i : Z) (l : list (Row F)) :
  NoDup (map (fun r => row_id r) l) ->
  (List.length (filter (fun r => (row_id r =? i)%Z) l) <= 1)%nat.
Proof.
  induction l as [|r l IH]; simpl; intros Hnd; [lia|].
  inversion Hnd as [|? ? Hr Hl]; subst.
  destruct (row_id r =? i) eqn:E; [|exact (IH Hl)].
  apply Z.eqb_eq in E. simpl.
  rewrite filter_on_miss; [simpl; lia|].
  intros r' Hin Heq. apply Hr. rewrite E, <- Heq.
  apply in_map_iff. exists r'. split; [reflexivity | exact Hin].
Qed.

(** Upserts keep the stored ids well formed (pairwise distinct and below
    the id sequence), whatever their outcome; and on well-formed ids an
    update reports 0 or 1 affected rows. *)
Theorem upsert_keeps_ids_well_formed
    (record : MemoryRecord) (w w' : World F) (r : HTTPError + payload F) :
  ids_well_formed (db w) ->
  insert_update_memory record w = (r, w') ->
  ids_well_formed (db w') /\
  (forall d n,
      r = inr (RDict d) ->
      dict_get "rows_affected" d = Some (VInt n) ->
      0 <= n <= 1).
Proof.
  intros [Hnd Hlt] H.
  assert (Hlt1 : Forall (fun r0 => row_id r0 < memory_id_seq (db w) + 1)
                   (memory (db w))).
  { apply (Forall_impl _ (P := fun r0 => row_id r0 < memory_id_seq (db w)));
      [intros r0 Hr0; lia | exact Hlt]. }
  rewrite insert_update_memory_outcome in H. cbv zeta in H.
  split_cases H; cbn.
  all: try (split; [split; assumption | intros d n E; discriminate E]).
  - split.
    + split; cbn.
      * rewrite map_row_id_update; [exact Hnd|].
        intros r0. unfold updated_row. destruct (row_id r0 =? _);
          reflexivity.
      * apply Forall_map. apply (Forall_impl _ (P := fun r0 => row_id r0 <
                                                   memory_id_seq (db w))).
        -- intros r0 Hr0. unfold updated_row.
           destruct (row_id r0 =? _); exact Hr0.
        -- exact Hlt.
    + intros d n E Hget. inversion E; subst. cbn in Hget.
      inversion Hget; subst.
      pose proof (filter_id_at_most_one z (memory (db w)) Hnd). lia.
  - split.
    + split; cbn.
      * rewrite map_app. apply NoDup_app; [exact Hnd | |].
        -- cbn. constructor; [intros []|constructor].
        -- intros a Ha [<-|[]].
           exact (sequence_value_is_fresh _ _ Hlt Ha).
      * apply Forall_app. split; [exact Hlt1|].
        constructor; [cbn; lia | constructor].
    + intros d n E Hget. inversion E; subst. cbn in Hget. discriminate Hget.
Qed.

(** *** Start-up and the model handle *)

(** Once [load_model] has run, the health check reports the model as
    loaded and no endpoint answers 503 any more: every failure is a 500. *)
Theorem after_start_up_no_503 (w w' : World F) (code : Z) (detail : string) :
  dict_get "model_loaded" (health_check (load_model w)) =
    Some (VBool true) /\
  db (load_model w) = db w /\
  ((exists data,
       generate_embedding data (load_model w) =
         (inl (HTTPException code detail), w')) \/
   (exists request,
       similarity_memory_search request (load_model w) =
         (inl (HTTPException code detail), w')) \/
   (exists record,
       insert_update_memory record (load_model w) =
         (inl (HTTPException code detail), w')) ->
   code = 500).
Proof.
  split; [reflexivity|]. split; [reflexivity|].
  intros [[data H]|[[request H]|[record H]]].
  - rewrite generate_embedding_outcome in H. cbn [load_model] in H.
    cbn in H. split_cases H; reflexivity.
  - rewrite similarity_memory_search_outcome in H. cbn in H.
    split_cases H; reflexivity.
  - rewrite insert_update_memory_outcome in H. cbn in H.
    split_cases H; reflexivity.
Qed.

(** The raw query does not look at the model handle: it answers the same,
    with the same effects, whether or not the model is loaded. *)
Theorem raw_query_ignores_model
    (request : QueryRequest) (w : World F) (h : option (Encoder F)) :
  query_memory request (set_model h w) =
    (fst (query_memory request w), set_model h (snd (query_memory request w))).
Proof.
  rewrite !query_memory_outcome. cbn.
  destruct (db_up w); [|reflexivity].
  destruct (run_sql (query request) (db w))
    as [[[msg]|[cur view]] durable]; cbn; [reflexivity|].
  destruct (is_select (query request)); [|reflexivity].
  destruct (description cur); reflexivity.
Qed.

End FurtherEndpointProperties.

(** ** The further properties on the small instance *)


Lemma answers_print_nothing_and_release_witness :
  let record := demo_record (Some 2) "two" "changed" in
  exists res w',
    insert_update_memory record demo_world = (inr res, w') /\
    stdout w' = stdout demo_world /\
    model w' = model demo_world /\
    open_connections (db_log w') = open_connections (db_log demo_world).
Proof.
  intros record.
  destruct (insert_update_memory record demo_world) as [[err|res] w'] eqn:E.
  - vm_compute in E. discriminate E.
  - exists res, w'. split; [reflexivity|].
    apply (answers_print_nothing_and_release demo_world w' res).
    right. right. right. exists record. exact E.
Defined.

Lemma read_endpoints_leave_store_alone_witness :
  let request := {| query_text := "hello"; top_k := 2 |} in
  let out := similarity_memory_search request demo_world in
  db (snd out) = db demo_world /\
  ticks (snd out) = ticks demo_world /\
  exists l,
    db_log (snd out) = (db_log demo_world ++ l)%list /\ ~ In EvCommit l.
Proof.
  intros request out.
  exact (proj1 (read_endpoints_leave_store_alone demo_world (snd out))
           request (fst out) (surjective_pairing out)).
Defined.

Lemma unreachable_store_is_a_500_witness :
  let w := {| model := Some demo_encoder; db := demo_db; db_up := false;
              db_log := []; ticks := 0; stdout := [] |} in
  db_up w = false /\
  (exists detail,
      query_memory {| query := "SELECT 1" |} w =
        (inl (HTTPException 500 detail), print_line detail w)) /\
  (exists detail,
      similarity_memory_search {| query_text := "hello"; top_k := 2 |} w =
        (inl (HTTPException 500 detail), print_line detail w)) /\
  (exists detail,
      insert_update_memory (demo_record None "A" "hello world") w =
        (inl (HTTPException 500 detail), print_line detail w)).
Proof.
  intros w. split; [reflexivity|].
  destruct (unreachable_store_is_a_500 w eq_refl) as (H1 & H2 & H3).
  split; [apply H1|]. split.
  - exact (H2 {| query_text := "hello"; top_k := 2 |} demo_encoder
             (repeat 5 768) eq_refl eq_refl).
  - exact (H3 (demo_record None "A" "hello world") demo_encoder
             (repeat 11 768) eq_refl eq_refl).
Defined.

Lemma select_without_result_set_is_a_500_witness :
  let request :=
    {| query := "SELECT 1; DELETE FROM public.memory; COMMIT" |} in
  let emptied := {| memory := []; memory_id_seq := 4 |} in
  db_up demo_world = true /\
  silent_sql (query request) (db demo_world) =
    (inr ({| description := None; fetched := []; rowcount := -1 |}, emptied),
     emptied) /\
  is_select (query request) = true /\
  exists detail w',
    query_memory (ext := silent) request demo_world =
      (inl (HTTPException 500 detail), w') /\
    db w' = emptied /\
    db_log w' = (db_log demo_world ++ [EvConnect; EvExecute])%list /\
    open_connections (db_log w') = open_connections (db_log demo_world) + 1.
Proof.
  intros request emptied.
  split; [reflexivity|]. split; [reflexivity|]. split; [reflexivity|].
  exact (select_without_result_set_is_a_500 (ext := silent) request
           demo_world
           {| description := None; fetched := []; rowcount := -1 |}
           emptied emptied eq_refl eq_refl eq_refl eq_refl).
Defined.

Lemma similarity_search_rejected_by_store_witness :
  let request := {| query_text := "hello"; top_k := -1 |} in
  model demo_world = Some demo_encoder /\
  demo_encoder (query_text request) = inr (repeat 5 768) /\
  db_up demo_world = true /\
  top_k request < 0 /\
  exists detail w',
    similarity_memory_search request demo_world =
      (inl (HTTPException 500 detail), w') /\
    db w' = db demo_world /\
    db_log w' = (db_log demo_world ++ [EvConnect; EvExecute])%list.
Proof.
  intros request.
  assert (Hneg : top_k request < 0) by (cbn; lia).
  split; [reflexivity|]. split; [reflexivity|]. split; [reflexivity|].
  split; [exact Hneg|].
  exact (similarity_search_rejected_by_store request demo_world demo_encoder
           (repeat 5 768) eq_refl eq_refl eq_refl (or_introl Hneg)).
Defined.

Lemma update_overwrites_every_field_witness :
  let record := demo_record (Some 2) "two" "changed" in
  id record = Some 2 /\
  exists res w',
    insert_update_memory record demo_world = (inr res, w') /\
    Forall2
      (fun old new =>
         row_id new = row_id old /\
         row_created_at new = row_created_at old /\
         (row_id old <> 2 -> new = old) /\
         (row_id old = 2 ->
          row_title new = title record /\
          row_scope new = scope record /\
          row_project new = project record /\
          row_category new = category record /\
          row_tags new = tags record /\
          row_source new = source record /\
          row_priority new = priority record /\
          row_status new = status record /\
          row_usage_count new = usage_count record /\
          row_last_used_at new = last_used_at record /\
          row_updated_at new = Some (clock (ticks demo_world))))
      (memory (db demo_world)) (memory (db w')).
Proof.
  intros record. split; [reflexivity|].
  destruct (insert_update_memory record demo_world) as [[err|res] w'] eqn:E.
  - vm_compute in E. discriminate E.
  - exists res, w'. split; [reflexivity|].
    exact (update_overwrites_every_field record demo_world w' res 2
             eq_refl E).
Defined.

Lemma upsert_agrees_with_embed_endpoint_witness :
  let record := demo_record None "A" "hello world" in
  exists res w' e,
    insert_update_memory record demo_world = (inr res, w') /\
    generate_embedding {| text := content record |} w' =
      (inr (RDict [ ("embedding", VVector e); ("model", VStr MODEL_NAME) ]),
       w') /\
    (forall r,
        In r (memory (db w')) -> ~ In r (memory (db demo_world)) ->
        row_embedding r = e /\ row_content r = content record).
Proof.
  intros record.
  destruct (insert_update_memory record demo_world) as [[err|res] w'] eqn:E.
  - vm_compute in E. discriminate E.
  - destruct (upsert_agrees_with_embed_endpoint record demo_world w' res E)
      as (e & H1 & H2).
    exists res, w', e. split; [reflexivity|]. split; [exact H1 | exact H2].
Defined.

Lemma insert_then_search_finds_record_witness :
  let record := demo_record None "A" "hello world" in
  let request := {| query_text := "hello"; top_k := 10 |} in
  id record = None /\
  model demo_world = Some demo_encoder /\
  demo_encoder (query_text request) = inr (repeat 5 768) /\
  List.length (repeat 5 768) = VECTOR_DIM /\
  Z.of_nat (List.length (memory (db demo_world))) < top_k request
    <= BIGINT_MAX /\
  exists res w1 e ds w2,
    insert_update_memory record demo_world = (inr res, w1) /\
    demo_encoder (content record) = inr e /\
    similarity_memory_search request w1 = (inr (RList ds), w2) /\
    List.length ds = 4%nat /\
    In (similarity_entry (repeat 5 768)
          (inserted_row record e 4 (clock 0%nat) (clock 1%nat))) ds.
Proof.
  intros record request.
  assert (Hk : Z.of_nat (List.length (memory (db demo_world))) <
               top_k request <= BIGINT_MAX)
    by (unfold BIGINT_MAX; cbn; lia).
  split; [reflexivity|]. split; [reflexivity|]. split; [reflexivity|].
  split; [reflexivity|]. split; [exact Hk|].
  destruct (insert_update_memory record demo_world) as [[err|res] w1] eqn:E.
  - vm_compute in E. discriminate E.
  - destruct (insert_then_search_finds_record record request demo_world w1
                res demo_encoder (repeat 5 768) eq_refl E eq_refl eq_refl
                eq_refl Hk) as (e & ds & w2 & H1 & _ & H3 & H4 & H5).
    exists res, w1, e, ds, w2.
    split; [reflexivity|]. split; [exact H1|]. split; [exact H3|].
    split; [exact H4 | exact H5].
Defined.

Lemma successive_inserts_get_distinct_ids_witness :
  let r1 := demo_record None "A" "hello world" in
  let r2 := demo_record None "B" "second" in
  let out1 := insert_update_memory r1 demo_world in
  let out2 := insert_update_memory r2 (snd out1) in
  let res1 := RDict [ ("status", VStr "success"); ("id", VInt 4);
                      ("operation", VStr "insert") ] in
  let res2 := RDict [ ("status", VStr "success"); ("id", VInt 5);
                      ("operation", VStr "insert") ] in
  id r1 = None /\ id r2 = None /\
  out1 = (inr res1, snd out1) /\
  out2 = (inr res2, snd out2) /\
  exists a b,
    res1 = RDict [ ("status", VStr "success"); ("id", VInt (row_id a));
                   ("operation", VStr "insert") ] /\
    res2 = RDict [ ("status", VStr "success"); ("id", VInt (row_id b));
                   ("operation", VStr "insert") ] /\
    memory (db (snd out2)) = (memory (db demo_world) ++ [a; b])%list /\
    row_id a < row_id b /\
    row_content a = content r1 /\
    row_content b = content r2 /\
    row_id b < memory_id_seq (db (snd out2)).
Proof.
  intros r1 r2 out1 out2 res1 res2.
  assert (E1 : out1 = (inr res1, snd out1)) by (vm_compute; reflexivity).
  assert (E2 : out2 = (inr res2, snd out2)) by (vm_compute; reflexivity).
  split; [reflexivity|]. split; [reflexivity|].
  split; [exact E1|]. split; [exact E2|].
  exact (successive_inserts_get_distinct_ids r1 r2 demo_world (snd out1)
           (snd out2) res1 res2 eq_refl eq_refl E1 E2).
Defined.

Lemma insert_then_update_hits_the_new_row_witness :
  let r1 := demo_record None "A" "hello world" in
  let r2 := demo_record (Some 4) "A" "changed" in
  let out1 := insert_update_memory r1 demo_world in
  let out2 := insert_update_memory r2 (snd out1) in
  let res1 := RDict [ ("status", VStr "success"); ("id", VInt 4);
                      ("operation", VStr "insert") ] in
  let res2 := RDict [ ("status", VStr "success"); ("id", VInt 4);
                      ("operation", VStr "update");
                      ("rows_affected", VInt 1) ] in
  id r1 = None /\
  out1 = (inr res1, snd out1) /\
  id r2 = Some (memory_id_seq (db demo_world)) /\
  model demo_world = Some demo_encoder /\
  demo_encoder (content r2) = inr (repeat 7 768) /\
  out2 = (inr res2, snd out2) /\
  exists old new,
    res1 = RDict [ ("status", VStr "success");
                   ("id", VInt (memory_id_seq (db demo_world)));
                   ("operation", VStr "insert") ] /\
    res2 = RDict [ ("status", VStr "success");
                   ("id", VInt (memory_id_seq (db demo_world)));
                   ("operation", VStr "update");
                   ("rows_affected", VInt 1) ] /\
    memory (db (snd out1)) = (memory (db demo_world) ++ [old])%list /\
    memory (db (snd out2)) = (memory (db demo_world) ++ [new])%list /\
    row_id new = memory_id_seq (db demo_world) /\
    row_content new = content r2 /\
    row_embedding new = repeat 7 768 /\
    row_created_at new = row_created_at old.
Proof.
  intros r1 r2 out1 out2 res1 res2.
  assert (E1 : out1 = (inr res1, snd out1)) by (vm_compute; reflexivity).
  assert (E2 : out2 = (inr res2, snd out2)) by (vm_compute; reflexivity).
  split; [reflexivity|]. split; [exact E1|]. split; [reflexivity|].
  split; [reflexivity|]. split; [reflexivity|]. split; [exact E2|].
  exact (insert_then_update_hits_the_new_row r1 r2 demo_world (snd out1)
           (snd out2) res1 res2 demo_encoder (repeat 7 768) eq_refl E1
           eq_refl eq_refl eq_refl E2).
Defined.

Lemma upsert_keeps_ids_well_formed_witness :
  let record := demo_record (Some 2) "two" "changed" in
  let out := insert_update_memory record demo_world in
  ids_well_formed (db demo_world) /\
  ids_well_formed (db (snd out)) /\
  (forall d n,
      fst out = inr (RDict d) ->
      dict_get "rows_affected" d = Some (VInt n) ->
      0 <= n <= 1).
Proof.
  intros record out.
  assert (Hwf : ids_well_formed (db demo_world)).
  { split; cbn.
    - repeat constructor; cbn; intuition discriminate.
    - repeat constructor. }
  split; [exact Hwf|].
  exact (upsert_keeps_ids_well_formed record demo_world (snd out) (fst out)
           Hwf (surjective_pairing out)).
Defined.

Lemma after_start_up_no_503_witness :
  let w := load_model demo_cold in
  let out := generate_embedding {| text := EmptyString |} w in
  dict_get "model_loaded" (health_check w) = Some (VBool true) /\
  db w = db demo_cold /\
  out =
    (inl (HTTPException 500 "Error during embedding generation: empty input"),
     snd out) /\
  500 = 500.
Proof.
  intros w out.
  assert (E : out =
              (inl (HTTPException 500
                      "Error during embedding generation: empty input"),
               snd out)) by (vm_compute; reflexivity).
  destruct (after_start_up_no_503 demo_cold (snd out) 500
              "Error during embedding generation: empty input")
    as (H1 & H2 & H3).
  split; [exact H1|]. split; [exact H2|]. split; [exact E|].
  apply H3. left. exists {| text := EmptyString |}. exact E.
Defined.
